(** * arch/arm/mach-msm/clock-debug.c: the debugfs view of the MSM clocks

    A shallow embedding of the file and the properties its interface
    description states about it.  The clock framework (the operation tables
    of the clocks, [clk_set_rate] and its siblings), debugfs, seq_file and
    printk live outside this file; they appear here as an external world
    whose calls are logged, and as a small model of the dentry tree. *)

From Stdlib Require Import ZArith Lia.
From stdpp Require Import base numbers list strings gmap pretty.

Local Open Scope Z_scope.

(** ** C integer types (ARM, 32-bit [int], [unsigned] and [unsigned long]) *)

Definition as_unsigned (v : Z) : Z := v mod 2 ^ 32.
Definition as_ulong (v : Z) : Z := v mod 2 ^ 32.
Definition as_u64 (v : Z) : Z := v mod 2 ^ 64.
Definition as_int (v : Z) : Z := (v + 2 ^ 31) mod 2 ^ 32 - 2 ^ 31.

Definition INT_MAX : Z := 2 ^ 31 - 1.

(** Modelled from the spec: the resource-allocation failure code is ENOMEM of
    <linux/errno.h>, which is outside this file. *)
Definition ENOMEM : Z := 12.

(** Modelled from the spec: the file modes are those of <linux/stat.h>, which
    is outside this file; [S_IRUGO] is read permission for all and [S_IWUSR]
    write permission for the owner. *)
Definition S_IRUGO : Z := 292.   (* 0444 *)
Definition S_IWUSR : Z := 128.   (* 0200 *)

(** The character '\n' of the C format strings. *)
Definition newline : string := String (Ascii.ascii_of_nat 10) EmptyString.

(** ** Clocks *)

(** The address of a [struct clk_ops]; [clock->ops != &clk_ops_remote]
    compares addresses, not contents. *)
Definition addr := Z.

(** The fields of [struct clk] this file reads.  The [list] member is the
    link of the framework's clock list, which is a Rocq list here. *)
Record clk := {
  id : Z;
  flags : Z;
  dbg_name : string;
  ops : addr;
}.

(** ** What leaves the file: calls into the clock framework, and printk *)

Inductive call :=
| Call_clk_set_rate (clock : clk) (rate : Z)
| Call_clk_set_min_rate (clock : clk) (rate : Z)
| Call_clk_set_max_rate (clock : clk) (rate : Z)
| Call_clk_get_rate (clock : clk)
| Call_enable (table : addr) (clk_id : Z)
| Call_disable (table : addr) (clk_id : Z)
| Call_is_enabled (table : addr) (clk_id : Z)
| Call_measure_rate (table : addr) (clk_id : Z)
| Call_list_rate (table : addr) (clk_id : Z) (n : Z).

Inductive loglevel := KERN_ERR | KERN_INFO.

(** An event is a call together with the value it returned (0 for a [void]
    function), or a line handed to printk. *)
Inductive event :=
| Ev_call (c : call) (ret : Z)
| Ev_printk (lvl : loglevel) (msg : string).

Definition call_of (e : event) : option call :=
  match e with Ev_call c _ => Some c | Ev_printk _ _ => None end.

Definition printk_of (e : event) : option string :=
  match e with Ev_call _ _ => None | Ev_printk _ m => Some m end.

Definition calls (tr : list event) : list call := omap call_of tr.
Definition printed (tr : list event) : list string := omap printk_of tr.

(** ** debugfs *)

(** A dentry is named by its path from the debugfs root; the [NULL] dentry is
    [None], and as a parent it stands for the root. *)
Abbreviation path := (list string).
Abbreviation dentry := (option (list string)).

(** The [file_operations] tables of this file, as the files point to them. *)
Inductive fops_ref :=
| clock_rate_fops
| clock_measure_fops
| clock_enable_fops
| clock_local_fops
| list_rates_fops.

Inductive inode :=
| I_dir
| I_u32 (mode : Z)                              (* bound to [debug_suspend] *)
| I_file (mode : Z) (data : clk) (fops : fops_ref).

(** Modelled from the spec: the debug filesystem itself (debugfs_create_dir,
    debugfs_create_file, debugfs_create_u32, debugfs_remove_recursive) is
    kernel code outside this file.  It is a virtual tree of directories and
    files; a creation returns [NULL] when the allocation fails or the name is
    taken in the parent, and the recursive removal deletes a dentry with all
    that lies below it.  Whether an allocation succeeds is the environment's
    choice: [fs_alloc] lists the outcomes of the coming attempts (an exhausted
    list means success). *)
Record debugfs := {
  fs_dentries : gmap path inode;
  fs_alloc : list bool;
}.

Definition parent_path (parent : dentry) : path := default [] parent.

Definition fs_create (name : string) (parent : dentry) (i : inode)
    (fs : debugfs) : dentry * debugfs :=
  let p := parent_path parent ++ [name] in
  let ok := hd true (fs_alloc fs) in
  let rest := tl (fs_alloc fs) in
  if ok then
    match fs_dentries fs !! p with
    | Some _ => (None, {| fs_dentries := fs_dentries fs; fs_alloc := rest |})
    | None => (Some p, {| fs_dentries := <[p := i]> (fs_dentries fs);
                          fs_alloc := rest |})
    end
  else (None, {| fs_dentries := fs_dentries fs; fs_alloc := rest |}).

(** Whether the next creation, at path [p], will succeed. *)
Definition can_create (p : path) (fs : debugfs) : bool :=
  hd true (fs_alloc fs) && bool_decide (fs_dentries fs !! p = None).

Fixpoint is_prefix (p q : path) : bool :=
  match p, q with
  | [], _ => true
  | a :: p', b :: q' => if decide (a = b) then is_prefix p' q' else false
  | _ :: _, [] => false
  end.

Definition fs_remove_recursive (d : dentry) (fs : debugfs) : debugfs :=
  match d with
  | None => fs
  | Some p =>
      {| fs_dentries := filter (λ kv, is_prefix p kv.1 = false) (fs_dentries fs);
         fs_alloc := fs_alloc fs |}
  end.

(** ** seq_file *)

(** Modelled from the spec: seq_file is kernel code outside this file.  The
    list_rates file is a text file; what [list_rates_show] sees of a
    [struct seq_file] is the [private] pointer and the text printed so far,
    to which [seq_printf] appends. *)
Record seq_file := {
  sf_private : clk;
  sf_buf : string;
}.

Definition seq_printf (m : seq_file) (text : string) : seq_file :=
  {| sf_private := sf_private m; sf_buf := sf_buf m +:+ text |}.

(** ** ctype *)

(** Modelled from the spec: the name of a clock is lower-cased with [tolower]
    of <linux/ctype.h>, which is outside this file.  It goes by the kernel's
    [_ctype] table, whose upper-case letters are A-Z and the Latin-1 range
    0xC0-0xDE without 0xD7. *)
Definition isupper (c : Z) : bool :=
  ((65 <=? c) && (c <=? 90))
  || ((192 <=? c) && (c <=? 222) && negb (c =? 215)).

Definition tolower (c : Z) : Z := if isupper c then c + 32 else c.

(** ** C strings *)

Definition as_uchar (v : Z) : Z := v mod 2 ^ 8.

Definition tab : string := String (Ascii.ascii_of_nat 9) EmptyString.

Definition byte_of (a : Ascii.ascii) : Z := Z.of_N (Ascii.N_of_ascii a).
Definition char_of (c : Z) : Ascii.ascii := Ascii.ascii_of_N (Z.to_N c).

(** The characters of the NUL-terminated string a [const char *] points to:
    those before the first NUL. *)
Fixpoint c_string (s : string) : list Z :=
  match s with
  | EmptyString => []
  | String a s' => if byte_of a =? 0 then [] else byte_of a :: c_string s'
  end.

(** The string a [char] array holds: its bytes up to the first NUL. *)
Fixpoint string_at (buf : list Z) : string :=
  match buf with
  | [] => EmptyString
  | c :: rest => if c =? 0 then EmptyString else String (char_of c) (string_at rest)
  end.

(** What the format [%s] prints of a [const char *]. *)
Definition c_text (s : string) : string := string_at (c_string s).

(** A string with every character lower-cased. *)
Fixpoint lowercase (s : string) : string :=
  match s with
  | EmptyString => EmptyString
  | String a s' => String (char_of (tolower (byte_of a))) (lowercase s')
  end.

(** Whether a string is free of NUL characters, as the contents of a C string
    are. *)
Fixpoint nul_free (s : string) : bool :=
  match s with
  | EmptyString => true
  | String a s' => negb (byte_of a =? 0) && nul_free s'
  end.

(** Modelled from the spec: [strncpy] is the kernel's string library, outside
    this file.  [strncpy(dest, src, n)] for [n] within [dest]: the first [n] bytes of
    [dest] become the characters of [src], cut at [n] or padded with NULs up
    to [n]; no terminator is written when [src] has [n] characters or
    more. *)
Definition strncpy (dest src : list Z) (n : nat) : list Z :=
  resize n 0 src ++ drop n dest.

(** ** The clock framework *)

(** [struct clk_ops], restricted to the members this file uses, over the
    state [W] of the framework and of the hardware behind it.  The file calls
    [enable], [disable] and [is_enabled] without a test, and tests
    [measure_rate] and [list_rate] against [NULL]. *)
Record clk_ops (W : Type) := {
  enable : Z → W → Z * W;
  disable : Z → W → W;
  is_enabled : Z → W → Z * W;
  measure_rate : option (Z → W → Z * W);
  list_rate : option (Z → Z → W → Z * W);
}.
Arguments enable {W} _ _ _.
Arguments disable {W} _ _ _.
Arguments is_enabled {W} _ _ _.
Arguments measure_rate {W} _.
Arguments list_rate {W} _.

(** What the file is linked against: the operation tables in memory, the
    address of the marker table of the clocks owned by the remote processor,
    the clock API of clock.c, and the flag bits of clock.h. *)
Class Platform := {
  W : Type;
  ops_at : addr → clk_ops W;
  clk_ops_remote : addr;
  clk_set_rate : clk → Z → W → Z * W;
  clk_set_min_rate : clk → Z → W → Z * W;
  clk_set_max_rate : clk → Z → W → Z * W;
  clk_get_rate : clk → W → Z * W;
  CLK_MIN : Z;
  CLK_MAX : Z;
}.

Section ClockDebug.

Context {P : Platform}.

(** *** Machine state *)

(** The world, the log of what left the file, debugfs, the three statics of
    the file ([debug_suspend] is a [u32]), and the bytes an uninitialised
    [char temp[50]] is found to hold. *)
Record state := {
  world : W;
  trace : list event;
  fs : debugfs;
  debugfs_base : dentry;
  debug_suspend : Z;
  clocks_ptr : option (list clk);
  stack : list Z;
}.

Definition set_world (w : W) (s : state) : state :=
  {| world := w; trace := trace s; fs := fs s;
     debugfs_base := debugfs_base s; debug_suspend := debug_suspend s;
     clocks_ptr := clocks_ptr s; stack := stack s |}.
Definition add_event (e : event) (s : state) : state :=
  {| world := world s; trace := trace s ++ [e]; fs := fs s;
     debugfs_base := debugfs_base s; debug_suspend := debug_suspend s;
     clocks_ptr := clocks_ptr s; stack := stack s |}.
Definition set_fs (f : debugfs) (s : state) : state :=
  {| world := world s; trace := trace s; fs := f;
     debugfs_base := debugfs_base s; debug_suspend := debug_suspend s;
     clocks_ptr := clocks_ptr s; stack := stack s |}.
Definition set_debugfs_base (d : dentry) (s : state) : state :=
  {| world := world s; trace := trace s; fs := fs s;
     debugfs_base := d; debug_suspend := debug_suspend s;
     clocks_ptr := clocks_ptr s; stack := stack s |}.
Definition set_clocks_ptr (l : option (list clk)) (s : state) : state :=
  {| world := world s; trace := trace s; fs := fs s;
     debugfs_base := debugfs_base s; debug_suspend := debug_suspend s;
     clocks_ptr := l; stack := stack s |}.

(** *** The monad of the file's functions *)

(** A function returns a value and a new state, or faults (a [NULL]
    function pointer is called, a buffer is overrun), or is still looping
    when its fuel is spent. *)
Inductive result (A : Type) :=
| Ret (a : A) (s : state)
| Fault
| Timeout.
Global Arguments Ret {A} a s.
Global Arguments Fault {A}.
Global Arguments Timeout {A}.

Definition M (A : Type) : Type := state → result A.

Global Instance M_ret : MRet M := λ A a s, Ret a s.
Global Instance M_bind : MBind M := λ A B k m s,
  match m s with
  | Ret a s' => k a s'
  | Fault => Fault
  | Timeout => Timeout
  end.

Definition get_state : M state := λ s, Ret s s.
Definition modify (f : state → state) : M unit := λ s, Ret tt (f s).
Definition fault {A} : M A := λ _, Fault.
Definition timeout {A} : M A := λ _, Timeout.

(** A call into the framework: the world answers and moves on, the value
    arrives in the C type of the callee, and the call is logged. *)
Definition external (c : call) (f : W → Z * W) (cast : Z → Z) : M Z := λ s,
  let '(r, w) := f (world s) in
  Ret (cast r) (add_event (Ev_call c (cast r)) (set_world w s)).

Definition external_void (c : call) (f : W → W) : M unit := λ s,
  Ret tt (add_event (Ev_call c 0) (set_world (f (world s)) s)).

Definition printk (lvl : loglevel) (msg : string) : M unit := λ s,
  Ret tt (add_event (Ev_printk lvl msg) s).

Definition pr_info (msg : string) : M unit := printk KERN_INFO msg.

Definition call_clk_set_rate (clock : clk) (rate : Z) : M Z :=
  external (Call_clk_set_rate clock (as_ulong rate))
           (clk_set_rate clock (as_ulong rate)) as_int.
Definition call_clk_set_min_rate (clock : clk) (rate : Z) : M Z :=
  external (Call_clk_set_min_rate clock (as_ulong rate))
           (clk_set_min_rate clock (as_ulong rate)) as_int.
Definition call_clk_set_max_rate (clock : clk) (rate : Z) : M Z :=
  external (Call_clk_set_max_rate clock (as_ulong rate))
           (clk_set_max_rate clock (as_ulong rate)) as_int.
Definition call_clk_get_rate (clock : clk) : M Z :=
  external (Call_clk_get_rate clock) (clk_get_rate clock) as_ulong.

Definition ops_of (clock : clk) : clk_ops W := ops_at (ops clock).

Definition call_enable (clock : clk) : M Z :=
  external (Call_enable (ops clock) (id clock))
           (enable (ops_of clock) (id clock)) as_int.
Definition call_disable (clock : clk) : M unit :=
  external_void (Call_disable (ops clock) (id clock))
                (disable (ops_of clock) (id clock)).
Definition call_is_enabled (clock : clk) : M Z :=
  external (Call_is_enabled (ops clock) (id clock))
           (is_enabled (ops_of clock) (id clock)) as_unsigned.
Definition call_measure_rate (clock : clk) : M Z :=
  match measure_rate (ops_of clock) with
  | Some f => external (Call_measure_rate (ops clock) (id clock))
                       (f (id clock)) as_int
  | None => fault
  end.
Definition call_list_rate (clock : clk) (n : Z) : M Z :=
  match list_rate (ops_of clock) with
  | Some f => external (Call_list_rate (ops clock) (id clock)
                                       (as_unsigned n))
                       (f (id clock) (as_unsigned n)) as_int
  | None => fault
  end.

(** *** The attribute handlers *)

Definition has_flag (clock : clk) (bit : Z) : bool :=
  negb (Z.land (flags clock) bit =? 0).

Definition clock_debug_rate_set (clock : clk) (val : Z) : M Z :=
  (if has_flag clock CLK_MAX
   then call_clk_set_max_rate clock val ;; mret tt
   else mret tt) ;;
  ret ← (if has_flag clock CLK_MIN
         then call_clk_set_min_rate clock val
         else call_clk_set_rate clock val);
  (if negb (ret =? 0)
   then printk KERN_ERR
          ("clk_set" +:+ (if has_flag clock CLK_MIN then "_min" else "")
           +:+ "_rate failed (" +:+ pretty ret +:+ ")" +:+ newline)
   else mret tt) ;;
  mret ret.

(** A [get] handler returns its status and the value stored through
    [val]. *)
Definition clock_debug_rate_get (clock : clk) : M (Z * Z) :=
  r ← call_clk_get_rate clock;
  mret (0, as_u64 r).

Definition clock_debug_measure_get (clock : clk) : M (Z * Z) :=
  r ← call_measure_rate clock;
  mret (0, as_u64 r).

Definition clock_debug_enable_set (clock : clk) (val : Z) : M Z :=
  if negb (val =? 0)
  then call_enable clock
  else call_disable clock ;; mret 0.

Definition clock_debug_enable_get (clock : clk) : M (Z * Z) :=
  r ← call_is_enabled clock;
  mret (0, as_u64 r).

Definition clock_debug_local_get (clock : clk) : M (Z * Z) :=
  mret (0, if decide (ops clock ≠ clk_ops_remote) then 1 else 0).

(** [DEFINE_SIMPLE_ATTRIBUTE(fops, get, set, fmt)]: the two handlers, either
    of which may be [NULL], and the format of the value. *)
Record simple_attr := {
  attr_get : option (clk → M (Z * Z));
  attr_set : option (clk → Z → M Z);
  attr_fmt : string;
}.

Definition clock_rate_attr : simple_attr :=
  {| attr_get := Some clock_debug_rate_get;
     attr_set := Some clock_debug_rate_set;
     attr_fmt := "%llu" +:+ newline |}.
Definition clock_measure_attr : simple_attr :=
  {| attr_get := Some clock_debug_measure_get;
     attr_set := None;
     attr_fmt := "%lld" +:+ newline |}.
Definition clock_enable_attr : simple_attr :=
  {| attr_get := Some clock_debug_enable_get;
     attr_set := Some clock_debug_enable_set;
     attr_fmt := "%llu" +:+ newline |}.
Definition clock_local_attr : simple_attr :=
  {| attr_get := Some clock_debug_local_get;
     attr_set := None;
     attr_fmt := "%llu" +:+ newline |}.

(** The [file_operations] behind a simple-attribute file. *)
Definition attr_of (f : fops_ref) : option simple_attr :=
  match f with
  | clock_rate_fops => Some clock_rate_attr
  | clock_measure_fops => Some clock_measure_attr
  | clock_enable_fops => Some clock_enable_attr
  | clock_local_fops => Some clock_local_attr
  | list_rates_fops => None
  end.

(** *** debugfs, as the file calls it *)

Definition debugfs_create_dir (name : string) (parent : dentry) : M dentry :=
  λ s, let '(d, f) := fs_create name parent I_dir (fs s) in Ret d (set_fs f s).

Definition debugfs_create_u32 (name : string) (mode : Z) (parent : dentry)
    : M dentry :=
  λ s, let '(d, f) := fs_create name parent (I_u32 mode) (fs s) in
       Ret d (set_fs f s).

Definition debugfs_create_file (name : string) (mode : Z) (parent : dentry)
    (data : clk) (fops : fops_ref) : M dentry :=
  λ s, let '(d, f) := fs_create name parent (I_file mode data fops) (fs s) in
       Ret d (set_fs f s).

Definition debugfs_remove_recursive (d : dentry) : M unit :=
  modify (λ s, set_fs (fs_remove_recursive d (fs s)) s).

(** *** clock_debug_init *)

(** [head] points to the framework's list of clocks; the file only ever
    reads that list. *)
Definition clock_debug_init (head : option (list clk)) : M Z :=
  d ← debugfs_create_dir "clk" None;
  modify (set_debugfs_base d) ;;
  match d with
  | None => mret (- ENOMEM)
  | Some _ =>
      f ← debugfs_create_u32 "debug_suspend" (Z.lor S_IRUGO S_IWUSR) d;
      match f with
      | None => debugfs_remove_recursive d ;; mret (- ENOMEM)
      | Some _ => modify (set_clocks_ptr head) ;; mret 0
      end
  end.

(** *** clock_debug_print_enabled *)

(** The body of [list_for_each_entry], with the counter [cnt] (an [int])
    passed along. *)
Fixpoint print_enabled_scan (l : list clk) (cnt : Z) : M Z :=
  match l with
  | [] => mret cnt
  | clk :: rest =>
      r ← call_is_enabled clk;
      cnt' ← (if negb (r =? 0)
              then pr_info (tab +:+ c_text (dbg_name clk) +:+ newline) ;;
                   mret (as_int (cnt + 1))
              else mret cnt);
      print_enabled_scan rest cnt'
  end.

Definition clock_debug_print_enabled : M unit :=
  s ← get_state;
  if debug_suspend s =? 0 then mret tt
  else
    pr_info ("Enabled clocks:" +:+ newline) ;;
    match clocks_ptr s with
    | None => fault
    | Some l =>
        cnt ← print_enabled_scan l 0;
        if negb (cnt =? 0)
        then pr_info ("Enabled clock count: " +:+ pretty cnt +:+ newline)
        else pr_info ("No clocks enabled." +:+ newline)
    end.

(** *** list_rates *)

(** [while ((rate = list_rate(id, i++)) >= 0) seq_printf(m, "%d\n", rate);]
    with [i] an [int]; the loop has no bound of its own, so the embedding
    takes fuel. *)
Fixpoint list_rates_loop (fuel : nat) (clock : clk) (i : Z) (m : seq_file)
    : M seq_file :=
  match fuel with
  | O => timeout
  | S fuel' =>
      rate ← call_list_rate clock i;
      if 0 <=? rate
      then list_rates_loop fuel' clock (as_int (i + 1))
             (seq_printf m (pretty rate +:+ newline))
      else mret m
  end.

Definition list_rates_show (fuel : nat) (m : seq_file) : M (Z * seq_file) :=
  m' ← list_rates_loop fuel (sf_private m) 0 m;
  mret (0, m').

(** [single_open(file, list_rates_show, inode->i_private)]: a fresh
    seq_file whose [private] is the clock of the file. *)
Definition list_rates_open (clock : clk) : seq_file :=
  {| sf_private := clock; sf_buf := "" |}.

(** *** clock_debug_add *)

(** [char temp[50]] as the function finds it on its stack. *)
Definition temp_uninitialised (s : state) : list Z :=
  resize 50 0 (as_uchar <$> stack s).

(** The loop that lower-cases [temp] in place, from its first byte up to
    the first NUL.  [None] when the scan leaves the array without having
    met a NUL. *)
Fixpoint lower_in_place (buf : list Z) : option (list Z) :=
  match buf with
  | [] => None
  | c :: rest =>
      if c =? 0 then Some buf
      else cons (as_uchar (tolower c)) <$> lower_in_place rest
  end.

(** The [error:] label of [clock_debug_add]. *)
Definition error (clk_dir : dentry) : M Z :=
  debugfs_remove_recursive clk_dir ;; mret (- ENOMEM).

Definition clock_debug_add (clock : clk) : M Z :=
  s ← get_state;
  match debugfs_base s with
  | None => mret (- ENOMEM)
  | Some _ =>
  let temp := strncpy (temp_uninitialised s) (c_string (dbg_name clock)) 49 in
  match lower_in_place temp with
  | None => fault
  | Some temp =>
  clk_dir ← debugfs_create_dir (string_at temp) (debugfs_base s);
  match clk_dir with
  | None => mret (- ENOMEM)
  | Some _ =>
  f ← debugfs_create_file "rate" (Z.lor S_IRUGO S_IWUSR) clk_dir
        clock clock_rate_fops;
  if negb (bool_decide (is_Some f)) then error clk_dir else
  f ← debugfs_create_file "enable" (Z.lor S_IRUGO S_IWUSR) clk_dir
        clock clock_enable_fops;
  if negb (bool_decide (is_Some f)) then error clk_dir else
  f ← debugfs_create_file "is_local" S_IRUGO clk_dir
        clock clock_local_fops;
  if negb (bool_decide (is_Some f)) then error clk_dir else
  failed ← (if bool_decide (is_Some (measure_rate (ops_of clock)))
            then f ← debugfs_create_file "measure" S_IRUGO clk_dir
                       clock clock_measure_fops;
                 mret (negb (bool_decide (is_Some f)))
            else mret false);
  if (failed : bool) then error clk_dir else
  failed ← (if bool_decide (is_Some (list_rate (ops_of clock)))
            then f ← debugfs_create_file "list_rates" S_IRUGO clk_dir
                       clock list_rates_fops;
                 mret (negb (bool_decide (is_Some f)))
            else mret false);
  if (failed : bool) then error clk_dir else
  mret 0
  end end end.

(** The name [clock_debug_add] gives the directory of a clock: what [temp]
    holds after the copy and the lower-casing loop. *)
Definition dir_name (clock : clk) (s : state) : option string :=
  string_at <$>
    lower_in_place
      (strncpy (temp_uninitialised s) (c_string (dbg_name clock)) 49).

(** The files [clock_debug_add] sets out to create below the directory of a
    clock, in the order of its calls. *)
Definition clock_files (clock : clk) : list (string * inode) :=
  [("rate", I_file (Z.lor S_IRUGO S_IWUSR) clock clock_rate_fops);
   ("enable", I_file (Z.lor S_IRUGO S_IWUSR) clock clock_enable_fops);
   ("is_local", I_file S_IRUGO clock clock_local_fops)]
  ++ (if bool_decide (is_Some (measure_rate (ops_of clock)))
      then [("measure", I_file S_IRUGO clock clock_measure_fops)] else [])
  ++ (if bool_decide (is_Some (list_rate (ops_of clock)))
      then [("list_rates", I_file S_IRUGO clock list_rates_fops)] else []).

(** Creating a list of files in order, with the [goto error] of
    [clock_debug_add] at the first failure.  The body of [clock_debug_add]
    after the directory is made is shown below to be this run over
    [clock_files]. *)
Fixpoint create_in_order (clk_dir : list string)
    (files : list (string * inode)) : M Z :=
  match files with
  | [] => mret 0
  | (name, i) :: rest =>
      λ s, let '(d, f) := fs_create name (Some clk_dir) i (fs s) in
           match d with
           | None => error (Some clk_dir) (set_fs f s)
           | Some _ => create_in_order clk_dir rest (set_fs f s)
           end
  end.

(** The statics of the file before any of its functions has run. *)
Definition boot (w : W) (f : debugfs) (garbage : list Z) : state :=
  {| world := w; trace := []; fs := f; debugfs_base := None;
     debug_suspend := 0; clocks_ptr := None; stack := garbage |}.

End ClockDebug.

(** ** A small platform to run the file on *)

(** The world is the list of the ids of the running clocks.  The table at
    address 1 is that of the local clocks, with a frequency plan of three
    rates; the table at address 2 is the marker of the remote clocks, which
    can neither measure nor list rates.  Setting a maximum rate is refused
    with -1, as when the request is not an increase. *)
Module Example.

Definition plan : list Z := [19200000; 38400000; 76800000].

Definition running (i : Z) (w : list Z) : Z :=
  if bool_decide (i ∈ w) then 1 else 0.

Definition plan_rate (n : Z) : Z := nth (Z.to_nat n) plan (-1).

Definition local_list_rate (i n : Z) (w : list Z) : Z * list Z :=
  (plan_rate n, w).

Definition local_ops : clk_ops (list Z) :=
  {| enable := λ i w, (0, i :: w);
     disable := λ i w, filter (λ j, j ≠ i) w;
     is_enabled := λ i w, (running i w, w);
     measure_rate := Some (λ i w, (19200000, w));
     list_rate := Some local_list_rate |}.

Definition remote_ops : clk_ops (list Z) :=
  {| enable := λ i w, (0, i :: w);
     disable := λ i w, filter (λ j, j ≠ i) w;
     is_enabled := λ i w, (running i w, w);
     measure_rate := None;
     list_rate := None |}.

Definition platform : Platform :=
  {| W := list Z;
     ops_at := λ a, if a =? 1 then local_ops else remote_ops;
     clk_ops_remote := 2;
     clk_set_rate := λ _ _ w, (0, w);
     clk_set_min_rate := λ _ _ w, (0, w);
     clk_set_max_rate := λ _ _ w, (-1, w);
     clk_get_rate := λ _ w, (19200000, w);
     CLK_MIN := 1024;
     CLK_MAX := 2048 |}.

Definition empty_fs : debugfs := {| fs_dentries := ∅; fs_alloc := [] |}.
Definition failing_fs (outcomes : list bool) : debugfs :=
  {| fs_dentries := ∅; fs_alloc := outcomes |}.

Definition adm_clk : clk :=
  {| id := 0; flags := 0; dbg_name := "ADM_CLK"; ops := 1 |}.
Definition ebi1_clk : clk :=
  {| id := 5; flags := 1024; dbg_name := "EBI1_CLK"; ops := 2 |}.
Definition pbus_clk : clk :=
  {| id := 7; flags := 2048; dbg_name := "PBUS_CLK"; ops := 2 |}.
Definition vfe_clk : clk :=
  {| id := 9; flags := 0; dbg_name := "VFE_CLK"; ops := 1 |}.

(** A name of 61 characters, more than [temp] can hold. *)
Definition long_clk : clk :=
  {| id := 11; flags := 0;
     dbg_name := "A_CLOCK_WITH_A_NAME_THAT_IS_LONGER_THAN_THE_FIFTY_BYTE_BUFFER";
     ops := 1 |}.

Definition clocks : list clk := [adm_clk; ebi1_clk; pbus_clk; vfe_clk].

Definition state_after {A} (m : @M platform A) (s : @state platform)
    : @state platform :=
  match m s with Ret _ s' => s' | _ => s end.

(** Before clock_debug_init; the clocks 5 and 9 are running. *)
Definition s0 : @state platform := boot (P := platform) [5; 9] empty_fs [].

(** After a successful clock_debug_init. *)
Definition s_ready : @state platform :=
  state_after (clock_debug_init (Some clocks)) s0.

(** The same, with [adm_clk] registered. *)
Definition s_adm : @state platform :=
  state_after (clock_debug_add adm_clk) s_ready.

(** The same, with [ebi1_clk] registered as well, and with an allocator
    that will serve two more requests and refuse the third. *)
Definition s_tight : @state platform :=
  set_fs {| fs_dentries :=
              fs_dentries (fs (state_after (clock_debug_add ebi1_clk) s_adm));
            fs_alloc := [true; true; false] |}
         s_adm.

(** After the registration of [vfe_clk] has failed on that allocator. *)
Definition s_failed : @state platform :=
  state_after (clock_debug_add vfe_clk) s_tight.

(** After the registration of [long_clk]. *)
Definition s_long : @state platform :=
  state_after (clock_debug_add long_clk) s_ready.

(** The paths of the dentries of a state. *)
Definition dentry_names (s : @state platform) : list (list string) :=
  (map_to_list (fs_dentries (fs s))).*1.

(** With debug_suspend switched on through its file. *)
Definition s_logging : @state platform :=
  {| world := world s_adm; trace := trace s_adm; fs := fs s_adm;
     debugfs_base := debugfs_base s_adm; debug_suspend := 1;
     clocks_ptr := clocks_ptr s_adm; stack := stack s_adm |}.

(** A clock whose name differs from that of [adm_clk] in case only. *)
Definition adm_mixed_clk : clk :=
  {| id := 13; flags := 0; dbg_name := "Adm_Clk"; ops := 2 |}.

(** [s_ready] found with a stack full of the letter A. *)
Definition s_dirty : @state platform :=
  {| world := world s_ready; trace := trace s_ready; fs := fs s_ready;
     debugfs_base := debugfs_base s_ready; debug_suspend := debug_suspend s_ready;
     clocks_ptr := clocks_ptr s_ready; stack := replicate 50 65 |}.

(** A platform whose only table lists the same rate at every index. *)
Definition endless_list_rate (i n : Z) (w : list Z) : Z * list Z :=
  (19200000, w).

Definition endless_ops : clk_ops (list Z) :=
  {| enable := λ i w, (0, i :: w);
     disable := λ i w, filter (λ j, j ≠ i) w;
     is_enabled := λ i w, (running i w, w);
     measure_rate := None;
     list_rate := Some endless_list_rate |}.

Definition endless_platform : Platform :=
  {| W := list Z;
     ops_at := λ _, endless_ops;
     clk_ops_remote := 2;
     clk_set_rate := λ _ _ w, (0, w);
     clk_set_min_rate := λ _ _ w, (0, w);
     clk_set_max_rate := λ _ _ w, (-1, w);
     clk_get_rate := λ _ w, (19200000, w);
     CLK_MIN := 1024;
     CLK_MAX := 2048 |}.

Definition s_endless : @state endless_platform :=
  boot (P := endless_platform) [] empty_fs [].

End Example.

(** ** Reading the log *)

(** The events a run has added to the log, given the states around it. *)
Definition since {P : Platform} (s s' : state) : list event :=
  drop (length (trace s)) (trace s').

(** The calls of a log with the values they returned. *)
Definition call_log (tr : list event) : list (call * Z) :=
  omap (λ e, match e with Ev_call c r => Some (c, r) | Ev_printk _ _ => None end) tr.

(** ** The rate file, as the interface description words it *)

(** The single operation a write to the rate file would invoke if the flags
    selected one of the three: the maximum when [CLK_MAX] is set, the minimum
    when [CLK_MIN] is set, the plain rate otherwise. *)
Definition selected_rate_call {P : Platform} (clock : clk) (val : Z) : call :=
  if has_flag clock CLK_MAX then Call_clk_set_max_rate clock (as_ulong val)
  else if has_flag clock CLK_MIN then Call_clk_set_min_rate clock (as_ulong val)
  else Call_clk_set_rate clock (as_ulong val).

Definition rate_set_invokes_selected {P : Platform}
    (clock : clk) (val : Z) (s : state) : Prop :=
  ∃ r s', clock_debug_rate_set clock val s = Ret r s'
          ∧ calls (since s s') = [selected_rate_call clock val].

(** ** Comparing debugfs before and after a run *)

Definition dentry_at {P : Platform} (s : state) (p : path) : option inode :=
  fs_dentries (fs s) !! p.

(** The run has created the dentry at [p], with inode [i]. *)
Definition created_by {P : Platform} (s s' : state) (p : path) (i : inode) : Prop :=
  dentry_at s p = None ∧ dentry_at s' p = Some i.

(** The run has left the place [p] as it was. *)
Definition untouched {P : Platform} (s s' : state) (p : path) : Prop :=
  dentry_at s' p = dentry_at s p.

(** The run has changed nothing but debugfs. *)
Definition only_fs_changed {P : Platform} (s s' : state) : Prop :=
  world s' = world s ∧ trace s' = trace s
  ∧ debugfs_base s' = debugfs_base s ∧ debug_suspend s' = debug_suspend s
  ∧ clocks_ptr s' = clocks_ptr s ∧ stack s' = stack s.

(** The dentries of a list of files, added below [dir]. *)
Definition with_files (dir : path) (files : list (string * inode))
    (m : gmap path inode) : gmap path inode :=
  foldl (λ m ni, <[dir ++ [ni.1] := ni.2]> m) m files.

(** ** The directory name, as the interface description words it *)

(** The run has created, below the root directory, a directory named
    dbg_name with every character lower-cased. *)
Definition dir_is_lowercased_name {P : Platform}
    (clock : clk) (s s' : state) : Prop :=
  ∃ b, debugfs_base s = Some b
       ∧ created_by s s' (b ++ [lowercase (dbg_name clock)]) I_dir.

(** ** Texts *)

(** A list of rates printed with the format of [list_rates_show], one per
    line. *)
Definition rate_lines (rates : list Z) : string :=
  foldr (λ r acc, (pretty r +:+ newline) +:+ acc) "" rates.

(** The lines [clock_debug_print_enabled] prints for a scan in which the
    clocks [on] answered that they are running. *)
Definition enabled_report (on : list clk) : list string :=
  ["Enabled clocks:" +:+ newline]
  ++ ((λ c, tab +:+ c_text (dbg_name c) +:+ newline) <$> on)
  ++ [match on with
      | [] => "No clocks enabled." +:+ newline
      | _ :: _ => "Enabled clock count: " +:+ pretty (Z.of_nat (length on))
                  +:+ newline
      end].

(** What the [is_enabled] operations of the clocks of a list return, as
    [unsigned] values, when they are called one after the other in the order
    of the list, the first of them in the world [w]; and the world the last
    of them leaves. *)
Fixpoint scan_answers {P : Platform} (l : list clk) (w : W) : list Z * W :=
  match l with
  | [] => ([], w)
  | c :: rest =>
      let a := is_enabled (ops_of c) (id c) w in
      let t := scan_answers rest a.2 in
      (as_unsigned a.1 :: t.1, t.2)
  end.

(** The clocks of a scan whose [is_enabled] returned a nonzero value, given
    the values returned in the order of the scan. *)
Definition answered_on (l : list clk) (rs : list Z) : list clk :=
  (filter (λ cr, cr.2 ≠ 0) (zip l rs)).*1.

(** ** Well-formed trees *)

(** Every dentry below the top level lies in a directory that exists. *)
Definition tree_ok (m : gmap path inode) : Prop :=
  ∀ q n, q ≠ [] → is_Some (m !! (q ++ [n])) → m !! q = Some I_dir.

(** The root directory handle of the file is [NULL] or points to a directory
    that exists. *)
Definition base_live {P : Platform} (s : state) : Prop :=
  match debugfs_base s with
  | None => True
  | Some b => dentry_at s b = Some I_dir
  end.

(** The run has left debugfs, the statics of the file and the stack as they
    were. *)
Definition statics_kept {P : Platform} (s s' : state) : Prop :=
  fs s' = fs s ∧ debugfs_base s' = debugfs_base s
  ∧ debug_suspend s' = debug_suspend s ∧ clocks_ptr s' = clocks_ptr s
  ∧ stack s' = stack s.

(** The places [clock_debug_add] needs for a clock are free, and the
    allocations it will ask for succeed. *)
Definition room_for {P : Platform} (clock : clk) (dir : path) (s : state) : Prop :=
  dentry_at s dir = None
  ∧ Forall (λ ni, dentry_at s (dir ++ [ni.1]) = None) (clock_files clock)
  ∧ ∀ k, (k ≤ length (clock_files clock))%nat →
         nth k (fs_alloc (fs s)) true = true.

(** ** Properties *)

Section Properties.

Context {P : Platform}.

Lemma as_u64_as_ulong v : as_u64 (as_ulong v) = as_ulong v.
Proof.
  unfold as_u64, as_ulong.
  pose proof (Z.mod_pos_bound v (2 ^ 32) ltac:(lia)).
  apply Z.mod_small. lia.
Qed.

Lemma as_u64_as_unsigned v : as_u64 (as_unsigned v) = as_unsigned v.
Proof. apply as_u64_as_ulong. Qed.

Lemma since_app (s s' : state) (new : list event) :
  trace s' = trace s ++ new → since s s' = new.
Proof. intros E. unfold since. rewrite E. apply drop_app_length. Qed.

Ltac unfold_monad :=
  unfold mbind, M_bind, mret, M_ret, external, external_void, printk,
    pr_info, modify, get_state, fault, timeout in *.

Lemma external_run (c : call) (f : W → Z * W) (cast : Z → Z) (s : state) :
  external c f cast s
  = Ret (cast (f (world s)).1)
        (add_event (Ev_call c (cast (f (world s)).1))
                   (set_world (f (world s)).2 s)).
Proof. unfold external. destruct (f (world s)); reflexivity. Qed.

(** C1, as the code has it: a write to the rate file first calls
    clk_set_max_rate when CLK_MAX is set, dropping its result, and then in
    every case calls clk_set_min_rate when CLK_MIN is set and clk_set_rate
    when it is not, in the world the first call has left; the handler
    returns what this second call returned, as an int, leaves the world as
    this call left it, and logs an error line when the value is not 0.  A
    read calls clk_get_rate once, yields its result with status 0 and
    leaves the world as the call left it.  Neither touches debugfs or the
    statics of the file. *)
Theorem clock_rate_file_handlers (clock : clk) (val : Z) (s : state) :
  (∃ rmax r s' w1,
    clock_debug_rate_set clock val s = Ret r s'
    ∧ trace s' = trace s
        ++ (if has_flag clock CLK_MAX
            then [Ev_call (Call_clk_set_max_rate clock (as_ulong val)) rmax]
            else [])
        ++ [Ev_call (if has_flag clock CLK_MIN
                     then Call_clk_set_min_rate clock (as_ulong val)
                     else Call_clk_set_rate clock (as_ulong val)) r]
        ++ (if r =? 0 then []
            else [Ev_printk KERN_ERR
                    ("clk_set" +:+ (if has_flag clock CLK_MIN then "_min" else "")
                     +:+ "_rate failed (" +:+ pretty r +:+ ")" +:+ newline)])
    ∧ rmax = as_int (clk_set_max_rate clock (as_ulong val) (world s)).1
    ∧ w1 = (if has_flag clock CLK_MAX
            then (clk_set_max_rate clock (as_ulong val) (world s)).2
            else world s)
    ∧ r = as_int (if has_flag clock CLK_MIN
                  then clk_set_min_rate clock (as_ulong val) w1
                  else clk_set_rate clock (as_ulong val) w1).1
    ∧ world s' = (if has_flag clock CLK_MIN
                  then clk_set_min_rate clock (as_ulong val) w1
                  else clk_set_rate clock (as_ulong val) w1).2
    ∧ fs s' = fs s ∧ debugfs_base s' = debugfs_base s
    ∧ debug_suspend s' = debug_suspend s ∧ clocks_ptr s' = clocks_ptr s)
  ∧ (∃ v s',
      clock_debug_rate_get clock s = Ret (0, v) s'
      ∧ trace s' = trace s ++ [Ev_call (Call_clk_get_rate clock) v]
      ∧ v = as_ulong (clk_get_rate clock (world s)).1
      ∧ world s' = (clk_get_rate clock (world s)).2
      ∧ fs s' = fs s ∧ debugfs_base s' = debugfs_base s
      ∧ debug_suspend s' = debug_suspend s ∧ clocks_ptr s' = clocks_ptr s)
  ∧ attr_of clock_rate_fops = Some clock_rate_attr
  ∧ attr_set clock_rate_attr = Some clock_debug_rate_set
  ∧ attr_get clock_rate_attr = Some clock_debug_rate_get.
Proof.
  split; [|split; [|repeat split]].
  - unfold clock_debug_rate_set, call_clk_set_max_rate, call_clk_set_min_rate,
      call_clk_set_rate.
    unfold mbind, M_bind, mret, M_ret.
    destruct (has_flag clock CLK_MAX), (has_flag clock CLK_MIN); simpl;
      repeat (rewrite external_run; simpl); unfold_monad; simpl;
      lazymatch goal with
      | |- context [negb (Z.eqb ?z 0)] => destruct (Z.eqb z 0) eqn:E
      end; simpl;
      exists (as_int (clk_set_max_rate clock (as_ulong val) (world s)).1);
      do 3 eexists; (split; [reflexivity|]); simpl;
      rewrite <- ?app_assoc; simpl; rewrite ?E; repeat split; reflexivity.
  - unfold clock_debug_rate_get, call_clk_get_rate, mbind, M_bind, mret, M_ret.
    rewrite external_run, as_u64_as_ulong. simpl.
    do 2 eexists. repeat split; reflexivity.
Qed.

(** C4: a write of 0 to the enable file calls the disable operation of the
    clock (once, and nothing else) and returns 0; a write of any other value
    calls its enable operation (once, and nothing else) and returns what it
    returned; a read calls is_enabled once and yields its result with
    status 0. *)
Theorem clock_enable_file_handlers (clock : clk) (val : Z) (s : state) :
  (∃ r s',
    clock_debug_enable_set clock val s = Ret r s'
    ∧ trace s' = trace s
        ++ [if val =? 0
            then Ev_call (Call_disable (ops clock) (id clock)) 0
            else Ev_call (Call_enable (ops clock) (id clock)) r]
    ∧ r = (if val =? 0 then 0
           else as_int (enable (ops_of clock) (id clock) (world s)).1)
    ∧ world s' = (if val =? 0
                  then disable (ops_of clock) (id clock) (world s)
                  else (enable (ops_of clock) (id clock) (world s)).2))
  ∧ (∃ v s',
      clock_debug_enable_get clock s = Ret (0, v) s'
      ∧ trace s' = trace s ++ [Ev_call (Call_is_enabled (ops clock) (id clock)) v]
      ∧ v = as_unsigned (is_enabled (ops_of clock) (id clock) (world s)).1)
  ∧ attr_of clock_enable_fops = Some clock_enable_attr
  ∧ attr_set clock_enable_attr = Some clock_debug_enable_set
  ∧ attr_get clock_enable_attr = Some clock_debug_enable_get.
Proof.
  split; [|split; [|repeat split]].
  - unfold clock_debug_enable_set, call_enable, call_disable.
    destruct (val =? 0); simpl.
    + unfold_monad. simpl. do 2 eexists. repeat split; reflexivity.
    + rewrite external_run. do 2 eexists. repeat split; reflexivity.
  - unfold clock_debug_enable_get, call_is_enabled, mbind, M_bind, mret, M_ret.
    rewrite external_run, as_u64_as_unsigned. simpl.
    do 2 eexists. repeat split; reflexivity.
Qed.

(** C5: a read of the is_local file yields 1 exactly when the operation
    table of the clock is not clk_ops_remote and 0 exactly when it is,
    calling nothing and changing nothing; the attribute has a get handler
    and no set handler. *)
Theorem clock_local_file_read_only (clock : clk) (s : state) :
  (∃ v,
    clock_debug_local_get clock s = Ret (0, v) s
    ∧ (v = 1 ↔ ops clock ≠ clk_ops_remote)
    ∧ (v = 0 ↔ ops clock = clk_ops_remote))
  ∧ attr_of clock_local_fops = Some clock_local_attr
  ∧ attr_get clock_local_attr = Some clock_debug_local_get
  ∧ attr_set clock_local_attr = None.
Proof.
  split; [|repeat split].
  unfold clock_debug_local_get, mret, M_ret.
  eexists. split; [reflexivity|].
  destruct (decide (ops clock ≠ clk_ops_remote)) as [Hne|He].
  - split; split; intros; try done.
  - apply dec_stable in He. split; split; intros; try done.
Qed.

(** *** debugfs *)

Lemma fs_create_spec (name : string) (parent : dentry) (i : inode) (f : debugfs) :
  fs_create name parent i f
  = if can_create (parent_path parent ++ [name]) f
    then (Some (parent_path parent ++ [name]),
          {| fs_dentries := <[parent_path parent ++ [name] := i]> (fs_dentries f);
             fs_alloc := tl (fs_alloc f) |})
    else (None, {| fs_dentries := fs_dentries f; fs_alloc := tl (fs_alloc f) |}).
Proof.
  unfold fs_create, can_create.
  destruct (hd true (fs_alloc f)); simpl; [|reflexivity].
  destruct (fs_dentries f !! (parent_path parent ++ [name])) eqn:E.
  - reflexivity.
  - reflexivity.
Qed.

Lemma is_prefix_app (p r : path) : is_prefix p (p ++ r) = true.
Proof.
  induction p as [|a p IH]; simpl; [reflexivity|].
  rewrite decide_True; auto.
Qed.

Lemma is_prefix_refl (p : path) : is_prefix p p = true.
Proof. rewrite <- (app_nil_r p) at 2. apply is_prefix_app. Qed.

(** Two children of one directory with different names: nothing lies below
    both. *)
Lemma is_prefix_sibling (b : path) (n n' : string) (q : path) :
  n ≠ n' → is_prefix (b ++ [n']) q = true → is_prefix (b ++ [n]) q = false.
Proof.
  intros Hne. revert q. induction b as [|a b IH]; intros [|c q]; simpl; try done.
  - repeat case_decide; subst; done.
  - case_decide; [apply IH | done].
Qed.

Lemma lookup_remove_recursive (p q : path) (f : debugfs) :
  fs_dentries (fs_remove_recursive (Some p) f) !! q
  = if is_prefix p q then None else fs_dentries f !! q.
Proof.
  simpl. rewrite map_lookup_filter.
  destruct (fs_dentries f !! q) as [x|] eqn:E; simpl.
  - case_guard as Hg; simpl in Hg; destruct (is_prefix p q); done.
  - destruct (is_prefix p q); reflexivity.
Qed.

(** C3: clock_debug_init always returns.  When the root directory cannot be
    created it returns -ENOMEM with debugfs as it was; when the root is
    created and the debug_suspend file cannot be, it returns -ENOMEM after
    the root and everything below it has been removed again, other dentries
    being untouched (the static handle keeps pointing to the removed root);
    when both are created it returns 0, with the two dentries added, the
    root handle set and the clock list recorded. *)
Theorem clock_debug_init_result (head : option (list clk)) (s : state) :
  let m := fs_dentries (fs s) in
  let root_ok := can_create ["clk"] (fs s) in
  let file_ok := hd true (tl (fs_alloc (fs s)))
                 && bool_decide (m !! ["clk"; "debug_suspend"] = None) in
  ∃ r s',
    clock_debug_init head s = Ret r s'
    ∧ r = (if root_ok && file_ok then 0 else - ENOMEM)
    ∧ (if root_ok
       then if file_ok
            then fs_dentries (fs s')
                 = <[["clk"; "debug_suspend"] := I_u32 (Z.lor S_IRUGO S_IWUSR)]>
                     (<[["clk"] := I_dir]> m)
                 ∧ debugfs_base s' = Some ["clk"]
                 ∧ clocks_ptr s' = head
            else (∀ q, is_prefix ["clk"] q = true →
                       fs_dentries (fs s') !! q = None)
                 ∧ (∀ q, is_prefix ["clk"] q = false →
                         fs_dentries (fs s') !! q = m !! q)
                 ∧ debugfs_base s' = Some ["clk"]
                 ∧ clocks_ptr s' = clocks_ptr s
       else fs_dentries (fs s') = m
            ∧ debugfs_base s' = None
            ∧ clocks_ptr s' = clocks_ptr s)
    ∧ trace s' = trace s ∧ world s' = world s
    ∧ debug_suspend s' = debug_suspend s.
Proof.
  intros m root_ok file_ok.
  unfold clock_debug_init, debugfs_create_dir, debugfs_create_u32,
    debugfs_remove_recursive, mbind, M_bind, mret, M_ret, modify.
  rewrite fs_create_spec. simpl parent_path. simpl app. fold root_ok.
  destruct root_ok eqn:Hroot; simpl.
  - rewrite fs_create_spec. simpl parent_path. simpl app.
    assert (can_create ["clk"; "debug_suspend"]
              {| fs_dentries := <[["clk"] := I_dir]> (fs_dentries (fs s));
                 fs_alloc := tl (fs_alloc (fs s)) |} = file_ok) as ->.
    { unfold can_create, file_ok, m. simpl.
      rewrite lookup_insert_ne; [reflexivity | done]. }
    destruct file_ok eqn:Hfile; simpl.
    + do 2 eexists. repeat split; reflexivity.
    + do 2 eexists. split; [reflexivity|]. simpl.
      repeat split; try reflexivity.
      * intros q Hq.
        rewrite map_lookup_filter_None. right. intros x _ H. simpl in H. congruence.
      * intros q Hq.
        pose proof (lookup_remove_recursive ["clk"] q
          {| fs_dentries := <[["clk"] := I_dir]> (fs_dentries (fs s));
             fs_alloc := tl (tl (fs_alloc (fs s))) |}) as E.
        simpl in E. simpl. rewrite E, Hq.
        apply lookup_insert_ne. intros <-. vm_compute in Hq. done.
  - do 2 eexists. repeat split; reflexivity.
Qed.

(** *** clock_debug_add, step by step *)

Local Arguments fs_create : simpl never.

(** Past the test of the root handle and the making of the name,
    [clock_debug_add] creates the directory and then runs through
    [clock_files]. *)
Lemma clock_debug_add_unfold (clock : clk) (s : state) (b : path) (name : string) :
  debugfs_base s = Some b →
  dir_name clock s = Some name →
  clock_debug_add clock s
  = let '(d, f) := fs_create name (Some b) I_dir (fs s) in
    match d with
    | None => Ret (- ENOMEM) (set_fs f s)
    | Some dir => create_in_order dir (clock_files clock) (set_fs f s)
    end.
Proof.
  intros Hb Hn. unfold clock_debug_add, dir_name in *.
  unfold mbind at 1. unfold M_bind at 1. unfold get_state. rewrite Hb.
  destruct (lower_in_place _) as [temp|]; [|discriminate].
  simpl in Hn. injection Hn as ->.
  unfold debugfs_create_dir, mbind at 1. unfold M_bind at 1.
  destruct (fs_create name (Some b) I_dir (fs s)) as [[dir|] f];
    [|reflexivity].
  unfold clock_files.
  destruct (measure_rate (ops_of clock)), (list_rate (ops_of clock)); simpl;
    repeat (unfold debugfs_create_file, mbind, M_bind, mret, M_ret; simpl;
            match goal with
            | |- context [fs_create ?n ?p ?i ?f] =>
                destruct (fs_create n p i f) as [[?|] ?]
            end; simpl; try reflexivity).
Qed.

Lemma clock_debug_add_null_base (clock : clk) (s : state) :
  debugfs_base s = None →
  clock_debug_add clock s = Ret (- ENOMEM) s.
Proof.
  intros Hbase. unfold clock_debug_add, mbind, M_bind, get_state.
  rewrite Hbase. reflexivity.
Qed.

Lemma clock_debug_add_nameless (clock : clk) (s : state) (b : path) :
  debugfs_base s = Some b →
  dir_name clock s = None →
  clock_debug_add clock s = Fault.
Proof.
  intros Hb Hn. unfold clock_debug_add, dir_name in *.
  unfold mbind, M_bind, get_state. rewrite Hb.
  destruct (lower_in_place _); [discriminate | reflexivity].
Qed.

Lemma only_fs_changed_refl (s : state) : only_fs_changed s s.
Proof. repeat split. Qed.

Lemma nth_tail (k : nat) (l : list bool) :
  nth (S k) l true = nth k (tail l) true.
Proof. destruct l; [destruct k|]; reflexivity. Qed.

Lemma nth_0_hd (l : list bool) : nth 0 l true = hd true l.
Proof. destruct l; reflexivity. Qed.

(** The run through a list of files: either every creation succeeds, each
    at a place that was free, on an allocation that succeeded, and the
    files are there at the end; or one fails, and at the end nothing is
    left at or below the directory while every other place is as before. *)
Lemma create_in_order_run (dir : path) (files : list (string * inode)) (s : state) :
  ∃ r s',
    create_in_order dir files s = Ret r s'
    ∧ only_fs_changed s s'
    ∧ ((r = 0
        ∧ fs_dentries (fs s') = with_files dir files (fs_dentries (fs s))
        ∧ Forall (λ ni, fs_dentries (fs s) !! (dir ++ [ni.1]) = None) files
        ∧ (∀ k, (k < length files)%nat → nth k (fs_alloc (fs s)) true = true))
       ∨ (r = - ENOMEM
          ∧ ∀ q, fs_dentries (fs s') !! q
                 = if is_prefix dir q then None else fs_dentries (fs s) !! q)).
Proof.
  revert s. induction files as [|[n i] rest IH]; intros s.
  - exists 0, s. split; [reflexivity|]. split; [apply only_fs_changed_refl|].
    left. repeat split; [constructor | simpl; lia].
  - simpl. rewrite fs_create_spec. simpl parent_path.
    destruct (can_create (dir ++ [n]) (fs s)) eqn:Hc.
    + apply andb_prop in Hc as [Hhd Hfree]. apply bool_decide_eq_true_1 in Hfree.
      destruct (IH (set_fs {| fs_dentries := <[dir ++ [n] := i]> (fs_dentries (fs s));
                              fs_alloc := tail (fs_alloc (fs s)) |} s))
        as (r & s' & Hrun & Hframe & Hcases).
      exists r, s'. split; [exact Hrun|]. split; [exact Hframe|].
      simpl in Hcases.
      destruct Hcases as [(-> & Hm & Hall & Halloc) | (-> & Hq)]; [left | right].
      * repeat split; [exact Hm | |].
        -- constructor; [exact Hfree|].
           eapply Forall_impl; [exact Hall|]. simpl. intros [n' i'] Hn'. simpl in *.
           apply lookup_insert_None in Hn'. apply Hn'.
        -- intros [|k] Hk; [rewrite nth_0_hd; exact Hhd|].
           rewrite nth_tail. apply Halloc. simpl in Hk. lia.
      * split; [reflexivity|]. intros q. rewrite Hq.
        destruct (is_prefix dir q) eqn:Hp; [reflexivity|].
        apply lookup_insert_ne. intros <-. rewrite is_prefix_app in Hp. done.
    + unfold error, debugfs_remove_recursive, mbind, M_bind, mret, M_ret, modify.
      simpl. do 2 eexists. split; [reflexivity|].
      split; [repeat split|]. right. split; [reflexivity|].
      intros q.
      exact (lookup_remove_recursive dir q
               {| fs_dentries := fs_dentries (fs s);
                  fs_alloc := tail (fs_alloc (fs s)) |}).
Qed.

(** Looking into a directory that has received a list of files. *)
Lemma lookup_with_files_other (dir : path) (files : list (string * inode))
    (m : gmap (list string) inode) (q : path) :
  (∀ n, n ∈ files.*1 → q ≠ dir ++ [n]) →
  with_files dir files m !! q = m !! q.
Proof.
  unfold with_files. revert m.
  induction files as [|[n' i'] rest IH]; intros m Hq; [reflexivity|].
  rewrite fmap_cons in Hq. cbn [foldl fst snd].
  rewrite IH.
  - apply lookup_insert_ne. intros E.
    eapply (Hq n'); [apply elem_of_cons; by left | by symmetry].
  - intros n Hn. apply Hq. apply elem_of_cons. by right.
Qed.

Lemma lookup_with_files_in (dir : path) (files : list (string * inode))
    (m : gmap (list string) inode) (n : string) (i : inode) :
  NoDup files.*1 → (n, i) ∈ files →
  with_files dir files m !! (dir ++ [n]) = Some i.
Proof.
  revert m.
  induction files as [|[n' i'] rest IH]; intros m Hnd Hin.
  - by apply elem_of_nil in Hin.
  - rewrite fmap_cons in Hnd. apply NoDup_cons in Hnd as [Hnotin Hnd].
    cbn [fst] in Hnotin.
    apply elem_of_cons in Hin as [Heq | Hin].
    + injection Heq as <- <-.
      change (with_files dir rest (<[dir ++ [n] := i]> m) !! (dir ++ [n]) = Some i).
      rewrite lookup_with_files_other; [apply lookup_insert_eq|].
      intros n2 Hn2 E%app_inv_head. injection E as ->. done.
    + change (with_files dir rest (<[dir ++ [n'] := i']> m) !! (dir ++ [n]) = Some i).
      apply IH; assumption.
Qed.

Ltac in_list :=
  first [ apply list_elem_of_here | apply list_elem_of_further; in_list ].
Ltac notin_list :=
  let H := fresh in
  intros H;
  repeat (apply elem_of_cons in H as [H|H]; [discriminate|]);
  by apply elem_of_nil in H.

Lemma clock_files_names_NoDup (clock : clk) : NoDup (clock_files clock).*1.
Proof.
  unfold clock_files.
  destruct (bool_decide (is_Some (measure_rate (ops_of clock)))),
           (bool_decide (is_Some (list_rate (ops_of clock))));
    cbn; apply (bool_decide_unpack _); vm_compute; exact I.
Qed.

Lemma path_ne_child (dir : path) (n : string) : dir ≠ dir ++ [n].
Proof.
  intros E. apply (f_equal length) in E. rewrite length_app in E.
  simpl in E. lia.
Qed.

(** A registration that returns 0 has found the root handle set, made a
    name, created the directory at a free place and then every file of
    [clock_files]. *)
Lemma clock_debug_add_success (clock : clk) (s s' : state) :
  clock_debug_add clock s = Ret 0 s' →
  ∃ b name,
    debugfs_base s = Some b
    ∧ dir_name clock s = Some name
    ∧ can_create (b ++ [name]) (fs s) = true
    ∧ only_fs_changed s s'
    ∧ fs_dentries (fs s')
      = with_files (b ++ [name]) (clock_files clock)
          (<[b ++ [name] := I_dir]> (fs_dentries (fs s)))
    ∧ Forall (λ ni, fs_dentries (fs s) !! (b ++ [name] ++ [ni.1]) = None)
             (clock_files clock).
Proof.
  intros Hadd.
  destruct (debugfs_base s) as [b|] eqn:Hb.
  2:{ rewrite clock_debug_add_null_base in Hadd by exact Hb. discriminate. }
  destruct (dir_name clock s) as [name|] eqn:Hn.
  2:{ rewrite (clock_debug_add_nameless clock s b) in Hadd by assumption.
      discriminate. }
  exists b, name. split; [reflexivity|]. split; [reflexivity|].
  rewrite (clock_debug_add_unfold clock s b name) in Hadd by assumption.
  rewrite fs_create_spec in Hadd. simpl parent_path in Hadd.
  destruct (can_create (b ++ [name]) (fs s)) eqn:Hc; [|discriminate].
  split; [reflexivity|].
  destruct (create_in_order_run (b ++ [name]) (clock_files clock)
              (set_fs {| fs_dentries := <[b ++ [name] := I_dir]> (fs_dentries (fs s));
                         fs_alloc := tail (fs_alloc (fs s)) |} s))
    as (r & s1 & Hrun & Hframe & Hcases).
  rewrite Hrun in Hadd. injection Hadd as -> ->.
  destruct Hcases as [(_ & Hm & Hall & _) | (Hr & _)]; [|discriminate].
  split; [exact Hframe|]. split; [exact Hm|].
  eapply Forall_impl; [exact Hall|]. simpl. intros ni Hni.
  apply lookup_insert_None in Hni as [Hni _]. rewrite <- app_assoc in Hni.
  exact Hni.
Qed.

(** *** The name of the directory *)

Lemma byte_of_range (a : Ascii.ascii) : 0 ≤ byte_of a < 256.
Proof.
  unfold byte_of. pose proof (Ascii.N_ascii_bounded a). lia.
Qed.

Lemma tolower_range (c : Z) : 0 < c < 256 → 0 < tolower c < 256.
Proof.
  intros Hc. unfold tolower, isupper.
  destruct ((65 <=? c) && (c <=? 90) || (192 <=? c) && (c <=? 222) && negb (c =? 215))
    eqn:E; [|lia].
  apply orb_prop in E as [E|E].
  - apply andb_prop in E as [_ E]. lia.
  - apply andb_prop in E as [E _]. apply andb_prop in E as [_ E]. lia.
Qed.

Lemma as_uchar_small (c : Z) : 0 ≤ c < 256 → as_uchar c = c.
Proof. intros Hc. unfold as_uchar. apply Z.mod_small. lia. Qed.

Lemma lower_in_place_c_string (str : string) (rest : list Z) :
  lower_in_place (c_string str ++ 0 :: rest)
  = Some (((λ c, as_uchar (tolower c)) <$> c_string str) ++ 0 :: rest).
Proof.
  induction str as [|a str IH]; [reflexivity|].
  simpl. destruct (byte_of a =? 0) eqn:E; [reflexivity|].
  simpl. rewrite E, IH. reflexivity.
Qed.

Lemma string_at_lowered (str : string) (rest : list Z) :
  nul_free str = true →
  string_at (((λ c, as_uchar (tolower c)) <$> c_string str) ++ 0 :: rest)
  = lowercase str.
Proof.
  induction str as [|a str IH]; [reflexivity|].
  simpl. intros [Ha Hstr]%andb_prop.
  apply negb_true_iff in Ha. rewrite Ha. simpl.
  pose proof (byte_of_range a) as Hr.
  assert (0 < byte_of a < 256) as Hpos by lia.
  pose proof (tolower_range _ Hpos) as Ht.
  rewrite as_uchar_small by lia.
  destruct (tolower (byte_of a) =? 0) eqn:E; [lia|].
  f_equal. apply IH, Hstr.
Qed.

Lemma length_c_string (str : string) :
  (length (c_string str) ≤ String.length str)%nat.
Proof.
  induction str as [|a str IH]; simpl; [lia|].
  destruct (byte_of a =? 0); simpl; lia.
Qed.

Lemma strncpy_short (dest src : list Z) (n : nat) :
  (length src < n)%nat → ∃ rest, strncpy dest src n = src ++ 0 :: rest.
Proof.
  intros Hlen. unfold strncpy. rewrite resize_ge by lia.
  destruct (n - length src)%nat as [|k] eqn:E; [lia|].
  exists (replicate k 0 ++ drop n dest). simpl.
  rewrite <- app_assoc. reflexivity.
Qed.

(** A name that fits the buffer with its terminator comes out lower-cased,
    whatever the stack held. *)
Lemma dir_name_short (clock : clk) (s : state) :
  nul_free (dbg_name clock) = true →
  (String.length (dbg_name clock) < 49)%nat →
  dir_name clock s = Some (lowercase (dbg_name clock)).
Proof.
  intros Hnul Hlen. unfold dir_name.
  pose proof (length_c_string (dbg_name clock)) as Hc.
  destruct (strncpy_short (temp_uninitialised s) (c_string (dbg_name clock)) 49)
    as [rest ->]; [lia|].
  rewrite lower_in_place_c_string. simpl.
  rewrite string_at_lowered by exact Hnul. reflexivity.
Qed.

(** *** The loop of list_rates_show *)

Lemma as_int_succ (j : Z) : as_int (as_int j + 1) = as_int (j + 1).
Proof.
  unfold as_int. f_equal.
  replace ((j + 2 ^ 31) mod 2 ^ 32 - 2 ^ 31 + 1 + 2 ^ 31)
    with ((j + 2 ^ 31) mod 2 ^ 32 + 1) by lia.
  rewrite Zplus_mod_idemp_l. f_equal. lia.
Qed.

Lemma as_unsigned_as_int (j : Z) : 0 ≤ j < 2 ^ 32 → as_unsigned (as_int j) = j.
Proof.
  intros Hj. unfold as_unsigned, as_int.
  rewrite Zminus_mod_idemp_l.
  replace (j + 2 ^ 31 - 2 ^ 31) with j by lia.
  apply Z.mod_small. lia.
Qed.

Lemma append_assoc (a b c : string) : (a +:+ b) +:+ c = a +:+ (b +:+ c).
Proof.
  induction a as [|x a IH]; [reflexivity|].
  change (String x ((a +:+ b) +:+ c) = String x (a +:+ (b +:+ c))).
  f_equal. exact IH.
Qed.

Lemma append_empty_r (a : string) : a +:+ "" = a.
Proof.
  induction a as [|x a IH]; [reflexivity|].
  change (String x (a +:+ "") = String x a).
  f_equal. exact IH.
Qed.

(** From index [j] on, with [n] indices left before the sentinel at [k],
    the loop prints the rates at [j], ..., [k - 1], asks once more at [k]
    and stops, provided it has more than [n] units of fuel. *)
Lemma list_rates_loop_run (clock : clk) (lr : Z → Z → W → Z * W) (f : Z → Z) (k : Z) :
  list_rate (ops_of clock) = Some lr →
  (∀ n w, lr (id clock) n w = (f n, w)) →
  k < 2 ^ 32 →
  (∀ j, 0 ≤ j < k → 0 ≤ as_int (f j)) →
  as_int (f k) < 0 →
  ∀ (n : nat) (j : Z) (fuel : nat) (m : seq_file) (s : state),
    0 ≤ j → j + Z.of_nat n = k → (n < fuel)%nat →
    ∃ m' s',
      list_rates_loop fuel clock (as_int j) m s = Ret m' s'
      ∧ sf_private m' = sf_private m
      ∧ sf_buf m' = sf_buf m
                    +:+ rate_lines ((λ i, as_int (f i)) <$> seqZ j (Z.of_nat n))
      ∧ trace s' = trace s
          ++ ((λ i, Ev_call (Call_list_rate (ops clock) (id clock) i) (as_int (f i)))
                <$> seqZ j (Z.of_nat n + 1))
      ∧ world s' = world s ∧ fs s' = fs s
      ∧ debugfs_base s' = debugfs_base s
      ∧ debug_suspend s' = debug_suspend s ∧ clocks_ptr s' = clocks_ptr s.
Proof.
  intros Hlr Hpure Hk Hrates Hend.
  induction n as [|n IH]; intros j fuel m s Hj Hjk Hfuel;
    (destruct fuel as [|fuel]; [lia|]);
    simpl list_rates_loop; unfold mbind, M_bind, call_list_rate;
    rewrite Hlr, external_run, as_unsigned_as_int, Hpure by lia; simpl.
  - replace j with k by lia.
    destruct (0 <=? as_int (f k)) eqn:E; [lia|].
    exists m. eexists. split; [reflexivity|]. simpl.
    rewrite append_empty_r. repeat split; reflexivity.
  - destruct (0 <=? as_int (f j)) eqn:E.
    2:{ specialize (Hrates j). lia. }
    rewrite as_int_succ.
    destruct (IH (j + 1) fuel (seq_printf m (pretty (as_int (f j)) +:+ newline))
                (add_event (Ev_call (Call_list_rate (ops clock) (id clock) j)
                                    (as_int (f j)))
                           (set_world (world s) s)))
      as (m' & s' & Hrun & Hpriv & Hbuf & Htrace & Hrest); [lia | lia | lia |].
    exists m', s'. split; [exact Hrun|]. split; [exact Hpriv|].
    split; [|split; [|exact Hrest]].
    + rewrite Hbuf. simpl sf_buf.
      rewrite (seqZ_cons j (Z.of_nat (S n))) by lia.
      replace (Z.pred (Z.of_nat (S n))) with (Z.of_nat n) by lia.
      rewrite fmap_cons. simpl rate_lines. unfold Z.succ.
      rewrite append_assoc. reflexivity.
    + rewrite Htrace. simpl trace.
      rewrite (seqZ_cons j (Z.of_nat (S n) + 1)) by lia.
      replace (Z.pred (Z.of_nat (S n) + 1)) with (Z.of_nat n + 1) by lia.
      rewrite fmap_cons, <- app_assoc. reflexivity.
Qed.

(** *** The scan of clock_debug_print_enabled *)

Lemma call_log_app (a b : list event) : call_log (a ++ b) = call_log a ++ call_log b.
Proof. apply omap_app. Qed.

Lemma printed_app (a b : list event) : printed (a ++ b) = printed a ++ printed b.
Proof. apply omap_app. Qed.

Lemma as_int_small (v : Z) : 0 ≤ v ≤ INT_MAX → as_int v = v.
Proof.
  unfold INT_MAX, as_int. intros Hv.
  rewrite Z.mod_small by lia. lia.
Qed.

(** The scan asks every clock of the list once, in order; it prints the
    name of each clock that answers with a nonzero value and counts
    them. *)
Lemma print_enabled_scan_run (l : list clk) :
  ∀ (cnt : Z) (s : state),
    0 ≤ cnt → cnt + Z.of_nat (length l) ≤ INT_MAX →
    ∃ rs s' evs,
      print_enabled_scan l cnt s
      = Ret (cnt + Z.of_nat (length (answered_on l rs))) s'
      ∧ length rs = length l
      ∧ trace s' = trace s ++ evs
      ∧ call_log evs
        = zip_with (λ c r, (Call_is_enabled (ops c) (id c), r)) l rs
      ∧ printed evs
        = (λ c, tab +:+ c_text (dbg_name c) +:+ newline) <$> answered_on l rs
      ∧ rs = (scan_answers l (world s)).1
      ∧ world s' = (scan_answers l (world s)).2
      ∧ fs s' = fs s ∧ debugfs_base s' = debugfs_base s
      ∧ debug_suspend s' = debug_suspend s ∧ clocks_ptr s' = clocks_ptr s.
Proof.
  induction l as [|c l IH]; intros cnt s Hcnt Hmax.
  - exists [], s, []. simpl. unfold mret, M_ret, answered_on. simpl.
    rewrite Z.add_0_r, app_nil_r. repeat split; reflexivity.
  - simpl print_enabled_scan. unfold mbind, M_bind, call_is_enabled.
    rewrite external_run. simpl.
    set (r := as_unsigned (is_enabled (ops_of c) (id c) (world s)).1).
    set (s1 := add_event (Ev_call (Call_is_enabled (ops c) (id c)) r)
                 (set_world (is_enabled (ops_of c) (id c) (world s)).2 s)).
    rewrite length_cons, Nat2Z.inj_succ in Hmax.
    destruct (r =? 0) eqn:E; simpl.
    + unfold mret, M_ret.
      destruct (IH cnt s1)
        as (rs & s' & evs & Hrun & Hlen & Htr & Hcalls & Hpr & Hans & Hw & Hrest);
        [lia | lia |].
      exists (r :: rs), s', (Ev_call (Call_is_enabled (ops c) (id c)) r :: evs).
      assert (answered_on (c :: l) (r :: rs) = answered_on l rs) as ->.
      { unfold answered_on. simpl. rewrite filter_cons_False; [reflexivity|].
        simpl. intros Hne. apply Hne. lia. }
      split; [exact Hrun|]. split; [simpl; lia|].
      split; [rewrite Htr; simpl; rewrite <- app_assoc; reflexivity|].
      split; [simpl; rewrite <- Hcalls; reflexivity|].
      split; [exact Hpr|].
      split; [simpl; rewrite Hans; reflexivity|].
      split; [rewrite Hw; reflexivity | exact Hrest].
    + unfold pr_info, printk, mret, M_ret. simpl.
      set (s2 := add_event (Ev_printk KERN_INFO (tab +:+ c_text (dbg_name c) +:+ newline)) s1).
      rewrite as_int_small by lia.
      destruct (IH (cnt + 1) s2)
        as (rs & s' & evs & Hrun & Hlen & Htr & Hcalls & Hpr & Hans & Hw & Hrest);
        [lia | lia |].
      exists (r :: rs), s',
        (Ev_call (Call_is_enabled (ops c) (id c)) r
         :: Ev_printk KERN_INFO (tab +:+ c_text (dbg_name c) +:+ newline) :: evs).
      assert (answered_on (c :: l) (r :: rs) = c :: answered_on l rs) as ->.
      { unfold answered_on. simpl. rewrite filter_cons_True; [reflexivity|].
        simpl. lia. }
      split.
      { rewrite Hrun. f_equal. rewrite length_cons. lia. }
      split; [simpl; lia|].
      split; [rewrite Htr; simpl; rewrite <- !app_assoc; reflexivity|].
      split; [simpl; rewrite <- Hcalls; reflexivity|].
      split; [rewrite fmap_cons, <- Hpr; reflexivity|].
      split; [simpl; rewrite Hans; reflexivity|].
      split; [rewrite Hw; reflexivity | exact Hrest].
Qed.

(** C7: when list_rate of the clock is a function of the index that is
    first negative at index k, list_rates_show, given more than k units of
    fuel, returns 0 having appended to the seq_file exactly the rates at
    0, ..., k - 1, one per line, after exactly the calls list_rate(id, 0),
    ..., list_rate(id, k); the loop ends for every such amount of fuel. *)
Theorem list_rates_show_output
    (m : seq_file) (s : state) (lr : Z → Z → W → Z * W) (f : Z → Z) (k : Z)
    (fuel : nat) :
  list_rate (ops_of (sf_private m)) = Some lr →
  (∀ n w, lr (id (sf_private m)) n w = (f n, w)) →
  0 ≤ k < 2 ^ 32 →
  (∀ j, 0 ≤ j < k → 0 ≤ as_int (f j)) →
  as_int (f k) < 0 →
  (Z.to_nat k < fuel)%nat →
  ∃ m' s',
    list_rates_show fuel m s = Ret (0, m') s'
    ∧ sf_private m' = sf_private m
    ∧ sf_buf m' = sf_buf m +:+ rate_lines ((λ i, as_int (f i)) <$> seqZ 0 k)
    ∧ call_log (since s s')
      = (λ i, (Call_list_rate (ops (sf_private m)) (id (sf_private m)) i,
               as_int (f i))) <$> seqZ 0 (k + 1)
    ∧ printed (since s s') = []
    ∧ world s' = world s ∧ fs s' = fs s.
Proof.
  intros Hlr Hpure Hk Hrates Hend Hfuel.
  destruct (list_rates_loop_run (sf_private m) lr f k Hlr Hpure
              ltac:(lia) Hrates Hend (Z.to_nat k) 0 fuel m s)
    as (m' & s' & Hrun & Hpriv & Hbuf & Htr & Hw & Hfs & _); [lia | lia | lia |].
  rewrite Z2Nat.id in Hbuf, Htr by lia.
  exists m', s'. unfold list_rates_show, mbind, M_bind, mret, M_ret.
  change (as_int 0) with 0 in Hrun. rewrite Hrun.
  split; [reflexivity|]. split; [exact Hpriv|]. split; [exact Hbuf|].
  rewrite (since_app s s' _ Htr).
  split; [|split; [|split; assumption]].
  - generalize (seqZ 0 (k + 1)). intros l.
    induction l as [|i l IH]; [reflexivity|]. simpl. f_equal. exact IH.
  - generalize (seqZ 0 (k + 1)). intros l.
    induction l as [|i l IH]; [reflexivity|]. simpl. exact IH.
Qed.

(** C8: with debug_suspend at 0, clock_debug_print_enabled returns with
    the state as it was, so that nothing is printed and no operation is
    called.  With debug_suspend nonzero and the list of clocks in place,
    it calls is_enabled once for each clock of the list, in the order of
    the list, and nothing else; the values these calls return are those the
    is_enabled operations of the clocks give from the world at entry on, and
    the world is left as the last of them leaves it.  It prints the heading,
    then the name of each clock whose is_enabled returned a nonzero value,
    then the number of those clocks, or the no-clocks line when there is
    none. *)
Theorem clock_debug_print_enabled_scan (s : state) :
  (debug_suspend s = 0 → clock_debug_print_enabled s = Ret tt s)
  ∧ (debug_suspend s ≠ 0 →
     ∀ l, clocks_ptr s = Some l → Z.of_nat (length l) ≤ INT_MAX →
       ∃ rs s',
         clock_debug_print_enabled s = Ret tt s'
         ∧ rs = (scan_answers l (world s)).1
         ∧ world s' = (scan_answers l (world s)).2
         ∧ length rs = length l
         ∧ call_log (since s s')
           = zip_with (λ c r, (Call_is_enabled (ops c) (id c), r)) l rs
         ∧ printed (since s s') = enabled_report (answered_on l rs)
         ∧ fs s' = fs s ∧ debugfs_base s' = debugfs_base s
         ∧ debug_suspend s' = debug_suspend s ∧ clocks_ptr s' = clocks_ptr s).
Proof.
  unfold clock_debug_print_enabled, mbind, M_bind, get_state. split.
  - intros ->. reflexivity.
  - intros Hon l Hl Hlen.
    destruct (debug_suspend s =? 0) eqn:E; [lia|].
    unfold pr_info, printk. rewrite Hl.
    set (s1 := add_event (Ev_printk KERN_INFO ("Enabled clocks:" +:+ newline)) s).
    destruct (print_enabled_scan_run l 0 s1)
      as (rs & s2 & evs & Hrun & Hrs & Htr & Hcalls & Hpr & Hans & Hw
          & Hfs & Hb & Hd & Hc);
      [lia | lia |].
    rewrite Hrun. exists rs. simpl.
    rewrite !Z.add_0_l.
    assert ((Z.of_nat (length (answered_on l rs)) =? 0)
            = match answered_on l rs with [] => true | _ => false end) as Hz.
    { destruct (answered_on l rs); simpl; [reflexivity | lia]. }
    rewrite Hz.
    destruct (answered_on l rs) as [|c on] eqn:Eon; simpl;
      eexists; (split; [reflexivity|]);
      (split; [exact Hans|]); (split; [exact Hw|]); (split; [exact Hrs|]);
      (erewrite since_app;
         [|simpl; rewrite Htr; simpl; rewrite <- !app_assoc; reflexivity]);
      simpl; rewrite call_log_app, printed_app, Hcalls, Hpr; simpl;
      rewrite ?app_nil_r;
      (split; [reflexivity|]); (split; [reflexivity|]);
      rewrite Hfs, Hb, Hd, Hc; subst s1; simpl; rewrite ?Hl; repeat split; reflexivity.
Qed.

(** C2: once the directory of a clock has been created, clock_debug_add
    returns, with 0 or with -ENOMEM.  It returns -ENOMEM whenever the
    allocation behind one of its file creations fails; and whenever it
    returns an error, nothing is left at or below the directory of the
    clock, every other place of debugfs is as it was, in particular all
    that lies below the directory of any other clock, and nothing but
    debugfs has changed. *)
Theorem clock_debug_add_failure_cleanup
    (clock : clk) (s : state) (b : path) (name : string) :
  debugfs_base s = Some b →
  dir_name clock s = Some name →
  can_create (b ++ [name]) (fs s) = true →
  ∃ r s',
    clock_debug_add clock s = Ret r s'
    ∧ only_fs_changed s s'
    ∧ (r = 0 ∨ r = - ENOMEM)
    ∧ (∀ k, (k < length (clock_files clock))%nat →
            nth (S k) (fs_alloc (fs s)) true = false → r = - ENOMEM)
    ∧ (r ≠ 0 →
         (∀ q, is_prefix (b ++ [name]) q = true → dentry_at s' q = None)
         ∧ (∀ q, is_prefix (b ++ [name]) q = false → untouched s s' q)
         ∧ (∀ other q, dentry_at s (b ++ [other]) = Some I_dir →
                       is_prefix (b ++ [other]) q = true → untouched s s' q)).
Proof.
  intros Hb Hn Hc.
  rewrite (clock_debug_add_unfold clock s b name) by assumption.
  rewrite fs_create_spec. simpl parent_path. rewrite Hc.
  destruct (create_in_order_run (b ++ [name]) (clock_files clock)
              (set_fs {| fs_dentries := <[b ++ [name] := I_dir]> (fs_dentries (fs s));
                         fs_alloc := tail (fs_alloc (fs s)) |} s))
    as (r & s' & Hrun & Hframe & Hcases).
  exists r, s'. split; [exact Hrun|]. split; [exact Hframe|].
  simpl in Hcases.
  destruct Hcases as [(-> & _ & _ & Halloc) | (-> & Hq)].
  - split; [by left|]. split; [|done].
    intros k Hk Hfail. rewrite nth_tail, Halloc in Hfail by exact Hk. done.
  - split; [by right|]. split; [done|]. intros _.
    assert (∀ q, is_prefix (b ++ [name]) q = false → untouched s s' q) as Hout.
    { intros q Hp. unfold untouched, dentry_at. rewrite Hq, Hp.
      apply lookup_insert_ne. intros <-. rewrite is_prefix_refl in Hp. done. }
    split; [|split; [exact Hout|]].
    + intros q Hp. unfold dentry_at. rewrite Hq, Hp. reflexivity.
    + intros other q Hdir Hp. apply Hout.
      apply (is_prefix_sibling b name other q); [|exact Hp].
      intros ->. apply andb_prop in Hc as [_ Hfree].
      apply bool_decide_eq_true_1 in Hfree.
      unfold dentry_at in Hdir. rewrite Hfree in Hdir. done.
Qed.

(** C6: a registration that returns 0 has created the directory of the
    clock and in it the rate, enable and is_local files, whatever the
    operation table holds; it has created the measure file exactly when
    measure_rate is not NULL and the list_rates file exactly when list_rate
    is not NULL, and has left the place of a file it did not create as it
    was. *)
Theorem clock_debug_add_files (clock : clk) (s s' : state) :
  clock_debug_add clock s = Ret 0 s' →
  ∃ b name,
    debugfs_base s = Some b
    ∧ dir_name clock s = Some name
    ∧ created_by s s' (b ++ [name]) I_dir
    ∧ created_by s s' (b ++ [name] ++ ["rate"])
        (I_file (Z.lor S_IRUGO S_IWUSR) clock clock_rate_fops)
    ∧ created_by s s' (b ++ [name] ++ ["enable"])
        (I_file (Z.lor S_IRUGO S_IWUSR) clock clock_enable_fops)
    ∧ created_by s s' (b ++ [name] ++ ["is_local"])
        (I_file S_IRUGO clock clock_local_fops)
    ∧ ((∃ i, created_by s s' (b ++ [name] ++ ["measure"]) i)
       ↔ is_Some (measure_rate (ops_of clock)))
    ∧ match measure_rate (ops_of clock) with
      | Some _ => created_by s s' (b ++ [name] ++ ["measure"])
                    (I_file S_IRUGO clock clock_measure_fops)
      | None => untouched s s' (b ++ [name] ++ ["measure"])
      end
    ∧ ((∃ i, created_by s s' (b ++ [name] ++ ["list_rates"]) i)
       ↔ is_Some (list_rate (ops_of clock)))
    ∧ match list_rate (ops_of clock) with
      | Some _ => created_by s s' (b ++ [name] ++ ["list_rates"])
                    (I_file S_IRUGO clock list_rates_fops)
      | None => untouched s s' (b ++ [name] ++ ["list_rates"])
      end.
Proof.
  intros Hadd.
  destruct (clock_debug_add_success clock s s' Hadd)
    as (b & name & Hb & Hn & Hc & _ & Hm & Hfree).
  exists b, name. split; [exact Hb|]. split; [exact Hn|].
  apply andb_prop in Hc as [_ Hdir]. apply bool_decide_eq_true_1 in Hdir.
  pose proof (clock_files_names_NoDup clock) as Hnd.
  assert (∀ n i, (n, i) ∈ clock_files clock →
                 created_by s s' (b ++ [name] ++ [n]) i) as Hin.
  { intros n i Hni. split; unfold dentry_at.
    - rewrite Forall_forall in Hfree. exact (Hfree (n, i) Hni).
    - rewrite Hm, app_assoc. apply lookup_with_files_in; assumption. }
  assert (∀ n, n ∉ (clock_files clock).*1 →
               untouched s s' (b ++ [name] ++ [n])) as Hout.
  { intros n Hni. unfold untouched, dentry_at.
    rewrite Hm, app_assoc, lookup_with_files_other.
    - apply lookup_insert_ne, path_ne_child.
    - intros n' Hn' E%app_inv_head. injection E as ->. done. }
  assert (∀ p i, created_by s s' p i → untouched s s' p → False) as Hexcl.
  { intros p i [H0 H1] H2. unfold untouched in H2. congruence. }
  split.
  { split; [exact Hdir|]. unfold dentry_at.
    rewrite Hm, lookup_with_files_other; [apply lookup_insert_eq|].
    intros n _. apply path_ne_child. }
  unfold clock_files in *.
  destruct (measure_rate (ops_of clock)) as [mr|],
           (list_rate (ops_of clock)) as [lr|]; cbn in Hin, Hout;
    repeat match goal with
           | |- _ ∧ _ => split
           | |- _ ↔ _ => split
           end;
    try (apply Hin; in_list);
    try (apply Hout; notin_list);
    try (intros _; eexists; apply Hin; in_list);
    try (intros _; by eexists);
    try (intros [i Hi]; exfalso; apply (Hexcl _ _ Hi); apply Hout; notin_list);
    try (intros [? ?]; discriminate).
Qed.

(** C9, as the code has it: for a clock whose dbg_name has fewer than 49
    characters, a registration that returns 0 has created, right below the
    root directory, a directory named dbg_name with every character
    lower-cased, and has touched nothing outside that directory. *)
Theorem clock_debug_add_dir_name (clock : clk) (s s' : state) :
  nul_free (dbg_name clock) = true →
  (String.length (dbg_name clock) < 49)%nat →
  clock_debug_add clock s = Ret 0 s' →
  ∃ b,
    debugfs_base s = Some b
    ∧ created_by s s' (b ++ [lowercase (dbg_name clock)]) I_dir
    ∧ ∀ q, is_prefix (b ++ [lowercase (dbg_name clock)]) q = false →
           untouched s s' q.
Proof.
  intros Hnul Hlen Hadd.
  destruct (clock_debug_add_success clock s s' Hadd)
    as (b & name & Hb & Hn & Hc & _ & Hm & _).
  rewrite dir_name_short in Hn by assumption. injection Hn as <-.
  exists b. split; [exact Hb|].
  apply andb_prop in Hc as [_ Hdir]. apply bool_decide_eq_true_1 in Hdir.
  split; [split|].
  - exact Hdir.
  - unfold dentry_at. rewrite Hm, lookup_with_files_other; [apply lookup_insert_eq|].
    intros n _. apply path_ne_child.
  - intros q Hq. unfold untouched, dentry_at.
    rewrite Hm, lookup_with_files_other.
    + apply lookup_insert_ne. intros <-. rewrite is_prefix_refl in Hq. done.
    + intros n _ ->. rewrite is_prefix_app in Hq. done.
Qed.

(** C10: with a NULL root directory handle, as before any successful
    clock_debug_init, clock_debug_add returns -ENOMEM at once and leaves the
    whole state as it was: no dentry is created, no operation of the clock
    is called and nothing is logged. *)
Theorem clock_debug_add_without_root (clock : clk) (s : state) :
  debugfs_base s = None →
  clock_debug_add clock s = Ret (- ENOMEM) s.
Proof. apply clock_debug_add_null_base. Qed.

End Properties.

(** ** More of the file: the remaining handler, edges and compositions *)

Section Further.

Context {P : Platform}.

Local Arguments fs_create : simpl never.

(** *** The handlers *)

Lemma statics_kept_refl (s : state) : statics_kept s s.
Proof. repeat split. Qed.

Lemma statics_kept_trans (s1 s2 s3 : state) :
  statics_kept s1 s2 → statics_kept s2 s3 → statics_kept s1 s3.
Proof.
  intros (? & ? & ? & ? & ?) (? & ? & ? & ? & ?). repeat split; congruence.
Qed.

Lemma external_kept (c : call) (f : W → Z * W) (cast : Z → Z) (s s' : state) (r : Z) :
  external c f cast s = Ret r s' → statics_kept s s'.
Proof. rewrite external_run. intros [= _ <-]. repeat split. Qed.

Lemma printk_kept (lvl : loglevel) (msg : string) (s s' : state) (u : unit) :
  printk lvl msg s = Ret u s' → statics_kept s s'.
Proof. unfold printk. intros [= _ <-]. repeat split. Qed.

(** The measure handler: with measure_rate implemented it calls it once and
    stores its [int] result, sign-extended, through [val]; a negative result
    comes out as 2^64 plus that result.  With measure_rate NULL the handler
    calls a NULL pointer.  The attribute has no set handler. *)
Theorem clock_debug_measure_get_result (clock : clk) (s : state) :
  match measure_rate (ops_of clock) with
  | Some f =>
      let r := as_int (f (id clock) (world s)).1 in
      ∃ s',
        clock_debug_measure_get clock s
        = Ret (0, if r <? 0 then 2 ^ 64 + r else r) s'
        ∧ trace s' = trace s ++ [Ev_call (Call_measure_rate (ops clock) (id clock)) r]
        ∧ world s' = (f (id clock) (world s)).2
        ∧ statics_kept s s'
  | None => clock_debug_measure_get clock s = Fault
  end
  ∧ attr_of clock_measure_fops = Some clock_measure_attr
  ∧ attr_get clock_measure_attr = Some clock_debug_measure_get
  ∧ attr_set clock_measure_attr = None.
Proof.
  split; [|repeat split].
  unfold clock_debug_measure_get, call_measure_rate, mbind, M_bind, mret, M_ret.
  destruct (measure_rate (ops_of clock)) as [f|]; [|reflexivity].
  cbv zeta. rewrite external_run. simpl.
  set (r := as_int (f (id clock) (world s)).1).
  assert (as_u64 r = if r <? 0 then 2 ^ 64 + r else r) as ->.
  { unfold as_u64.
    assert (- 2 ^ 31 ≤ r < 2 ^ 31) as Hr.
    { unfold r, as_int.
      pose proof (Z.mod_pos_bound ((f (id clock) (world s)).1 + 2 ^ 31) (2 ^ 32)
                    ltac:(lia)). lia. }
    destruct (r <? 0) eqn:E.
    - replace r with (2 ^ 64 + r + (-1) * 2 ^ 64) at 1 by lia.
      rewrite Z.mod_add by lia. apply Z.mod_small. lia.
    - apply Z.mod_small. lia. }
  eexists. repeat split; reflexivity.
Qed.

Lemma list_rates_loop_kept (clock : clk) (fuel : nat) :
  ∀ (i : Z) (m m' : seq_file) (s s' : state),
    list_rates_loop fuel clock i m s = Ret m' s' → statics_kept s s'.
Proof.
  induction fuel as [|fuel IH]; intros i m m' s s'; [discriminate|].
  simpl. unfold mbind, M_bind, call_list_rate.
  destruct (list_rate (ops_of clock)) as [lr|]; [|discriminate].
  destruct (external _ _ _ s) as [rate s1| |] eqn:Hcall; [|discriminate..].
  apply external_kept in Hcall.
  destruct (0 <=? rate).
  - intros Hrun. apply IH in Hrun. eapply statics_kept_trans; eassumption.
  - intros [= _ <-]. exact Hcall.
Qed.

Lemma print_enabled_scan_kept (l : list clk) :
  ∀ (cnt cnt' : Z) (s s' : state),
    print_enabled_scan l cnt s = Ret cnt' s' → statics_kept s s'.
Proof.
  induction l as [|c l IH]; intros cnt cnt' s s'.
  - intros [= _ <-]. apply statics_kept_refl.
  - simpl. unfold mbind, M_bind, call_is_enabled.
    destruct (external _ _ _ s) as [r s1| |] eqn:Hcall; [|discriminate..].
    apply external_kept in Hcall.
    destruct (negb (r =? 0)).
    + unfold pr_info, printk, mret, M_ret. intros Hrun. apply IH in Hrun.
      eapply statics_kept_trans; [exact Hcall|].
      eapply statics_kept_trans; [|exact Hrun]. repeat split.
    + unfold mret, M_ret. intros Hrun. apply IH in Hrun.
      eapply statics_kept_trans; eassumption.
Qed.

(** No handler of a file, and neither list_rates_show nor
    clock_debug_print_enabled, ever changes debugfs, the root handle,
    debug_suspend or the list pointer: whatever they return, these are as
    before. *)
Theorem handlers_keep_statics (clock : clk) (val : Z) (fuel : nat)
    (m : seq_file) (s s' : state) :
  (∀ r, clock_debug_rate_set clock val s = Ret r s' → statics_kept s s')
  ∧ (∀ r, clock_debug_rate_get clock s = Ret r s' → statics_kept s s')
  ∧ (∀ r, clock_debug_measure_get clock s = Ret r s' → statics_kept s s')
  ∧ (∀ r, clock_debug_enable_set clock val s = Ret r s' → statics_kept s s')
  ∧ (∀ r, clock_debug_enable_get clock s = Ret r s' → statics_kept s s')
  ∧ (∀ r, clock_debug_local_get clock s = Ret r s' → statics_kept s s')
  ∧ (∀ r, list_rates_show fuel m s = Ret r s' → statics_kept s s')
  ∧ (∀ r, clock_debug_print_enabled s = Ret r s' → statics_kept s s').
Proof.
  repeat match goal with |- _ ∧ _ => split end; intros r.
  - unfold clock_debug_rate_set, call_clk_set_max_rate, call_clk_set_min_rate,
      call_clk_set_rate, mbind, M_bind, mret, M_ret.
    destruct (has_flag clock CLK_MAX), (has_flag clock CLK_MIN); simpl;
      repeat (rewrite external_run; simpl);
      match goal with
      | |- context [negb (Z.eqb ?z 0)] => destruct (Z.eqb z 0)
      end; simpl; unfold printk; intros [= _ <-]; repeat split.
  - unfold clock_debug_rate_get, call_clk_get_rate, mbind, M_bind, mret, M_ret.
    rewrite external_run. intros [= _ <-]. repeat split.
  - unfold clock_debug_measure_get, call_measure_rate, mbind, M_bind, mret, M_ret.
    destruct (measure_rate (ops_of clock)); [|discriminate].
    rewrite external_run. intros [= _ <-]. repeat split.
  - unfold clock_debug_enable_set, call_enable, call_disable, external_void,
      mbind, M_bind, mret, M_ret.
    destruct (negb (val =? 0)).
    + rewrite external_run. intros [= _ <-]. repeat split.
    + intros [= _ <-]. repeat split.
  - unfold clock_debug_enable_get, call_is_enabled, mbind, M_bind, mret, M_ret.
    rewrite external_run. intros [= _ <-]. repeat split.
  - unfold clock_debug_local_get, mret, M_ret. intros [= _ <-]. repeat split.
  - unfold list_rates_show, mbind, M_bind, mret, M_ret.
    destruct (list_rates_loop fuel (sf_private m) 0 m s) as [m' s1| |] eqn:Hloop;
      [|discriminate..].
    intros [= _ <-]. eapply list_rates_loop_kept, Hloop.
  - unfold clock_debug_print_enabled, mbind, M_bind, get_state.
    destruct (debug_suspend s =? 0); [intros [= _ <-]; apply statics_kept_refl|].
    unfold pr_info, printk.
    destruct (clocks_ptr s) as [l|]; [|discriminate].
    destruct (print_enabled_scan l 0 _) as [cnt s1| |] eqn:Hscan; [|discriminate..].
    apply print_enabled_scan_kept in Hscan.
    destruct (negb (cnt =? 0)); intros [= _ <-];
      (eapply statics_kept_trans; [|eapply statics_kept_trans; [exact Hscan|]]);
      repeat split.
Qed.

(** *** clock_debug_add: refusals and success *)

Lemma dir_name_stack (clock : clk) (s s' : state) :
  stack s' = stack s → dir_name clock s' = dir_name clock s.
Proof. intros E. unfold dir_name, temp_uninitialised. rewrite E. reflexivity. Qed.

(** When the directory cannot be created the function returns at once: one
    allocation has been asked for and nothing else has happened. *)
Lemma clock_debug_add_dir_refused (clock : clk) (s : state) (b : path) (name : string) :
  debugfs_base s = Some b →
  dir_name clock s = Some name →
  can_create (b ++ [name]) (fs s) = false →
  clock_debug_add clock s
  = Ret (- ENOMEM)
        (set_fs {| fs_dentries := fs_dentries (fs s);
                   fs_alloc := tail (fs_alloc (fs s)) |} s).
Proof.
  intros Hb Hn Hc.
  rewrite (clock_debug_add_unfold clock s b name) by assumption.
  rewrite fs_create_spec. simpl parent_path. rewrite Hc. reflexivity.
Qed.

Lemma can_create_taken (p : path) (f : debugfs) (i : inode) :
  fs_dentries f !! p = Some i → can_create p f = false.
Proof.
  intros Hp. unfold can_create. rewrite bool_decide_eq_false_2.
  - apply andb_false_r.
  - rewrite Hp. done.
Qed.

(** A registration that has returned 0 has kept every dentry there was. *)
Lemma clock_debug_add_keeps_dentries (clock : clk) (s s' : state) :
  clock_debug_add clock s = Ret 0 s' →
  ∀ q i, dentry_at s q = Some i → dentry_at s' q = Some i.
Proof.
  intros Hadd q i Hq.
  destruct (clock_debug_add_success clock s s' Hadd)
    as (b & name & _ & _ & Hc & _ & Hm & Hfree).
  unfold dentry_at in *. rewrite Hm, lookup_with_files_other.
  - rewrite lookup_insert_ne; [exact Hq|].
    intros <-. unfold can_create in Hc. apply andb_prop in Hc as [_ Hc].
    apply bool_decide_eq_true_1 in Hc. rewrite Hc in Hq. discriminate.
  - intros n Hn ->. apply list_elem_of_fmap in Hn as [[n' i'] [-> Hin]].
    rewrite Forall_forall in Hfree. specialize (Hfree _ Hin). cbv beta in Hfree.
    rewrite <- app_assoc, Hfree in Hq. discriminate.
Qed.

(** A clock whose name fits the buffer cannot be registered twice: after a
    registration that returned 0, in every later state that has the same
    root handle and still has the dentries of that registration (whatever
    its stack, its world, its allocator and the dentries added since), a
    registration of the same clock returns -ENOMEM, and it leaves every
    dentry, those of the first registration included, as it is. *)
Theorem clock_debug_add_twice (clock : clk) (s s' s2 : state) :
  nul_free (dbg_name clock) = true →
  (String.length (dbg_name clock) < 49)%nat →
  clock_debug_add clock s = Ret 0 s' →
  debugfs_base s2 = debugfs_base s' →
  (∀ q i, dentry_at s' q = Some i → dentry_at s2 q = Some i) →
  ∃ s'',
    clock_debug_add clock s2 = Ret (- ENOMEM) s''
    ∧ fs_dentries (fs s'') = fs_dentries (fs s2)
    ∧ only_fs_changed s2 s''.
Proof.
  intros Hnul Hlen Hadd Hbase2 Hkept.
  destruct (clock_debug_add_success clock s s' Hadd)
    as (b & name & Hb & Hn & _ & Hframe & Hm & _).
  destruct Hframe as (_ & _ & Hbase & _ & _ & _).
  rewrite dir_name_short in Hn by assumption. injection Hn as <-.
  eexists. split.
  - apply (clock_debug_add_dir_refused clock s2 b (lowercase (dbg_name clock))).
    + rewrite Hbase2, Hbase. exact Hb.
    + apply dir_name_short; assumption.
    + apply (can_create_taken _ _ I_dir). apply Hkept. unfold dentry_at.
      rewrite Hm, lookup_with_files_other; [apply lookup_insert_eq|].
      intros n _. apply path_ne_child.
  - split; [reflexivity | repeat split].
Qed.

(** Names that differ in case only collide: when a clock has been
    registered, the registration of another clock whose name lower-cases to
    the same string (both names fitting the buffer) returns -ENOMEM and
    leaves every dentry as it is. *)
Theorem clock_debug_add_case_collision (c1 c2 : clk) (s s' : state) :
  nul_free (dbg_name c1) = true → (String.length (dbg_name c1) < 49)%nat →
  nul_free (dbg_name c2) = true → (String.length (dbg_name c2) < 49)%nat →
  lowercase (dbg_name c1) = lowercase (dbg_name c2) →
  clock_debug_add c1 s = Ret 0 s' →
  ∃ s'',
    clock_debug_add c2 s' = Ret (- ENOMEM) s''
    ∧ fs_dentries (fs s'') = fs_dentries (fs s')
    ∧ only_fs_changed s' s''.
Proof.
  intros Hn1 Hl1 Hn2 Hl2 Hlow Hadd.
  destruct (clock_debug_add_success c1 s s' Hadd)
    as (b & name & Hb & Hn & _ & Hframe & Hm & _).
  destruct Hframe as (_ & _ & Hbase & _ & _ & _).
  rewrite dir_name_short in Hn by assumption. injection Hn as <-.
  eexists. split.
  - apply (clock_debug_add_dir_refused c2 s' b (lowercase (dbg_name c2))).
    + rewrite Hbase. exact Hb.
    + apply dir_name_short; assumption.
    + apply (can_create_taken _ _ I_dir).
      rewrite <- Hlow, Hm, lookup_with_files_other; [apply lookup_insert_eq|].
      intros n _. apply path_ne_child.
  - split; [reflexivity | repeat split].
Qed.

(** With every place free and every allocation served, the run through a
    list of files with distinct names returns 0. *)
Lemma create_in_order_ok (dir : path) (files : list (string * inode)) :
  NoDup files.*1 →
  ∀ s : state,
    Forall (λ ni, fs_dentries (fs s) !! (dir ++ [ni.1]) = None) files →
    (∀ k, (k < length files)%nat → nth k (fs_alloc (fs s)) true = true) →
    ∃ s', create_in_order dir files s = Ret 0 s'.
Proof.
  induction files as [|[n i] rest IH]; intros Hnd s Hfree Halloc.
  - exists s. reflexivity.
  - rewrite fmap_cons in Hnd. apply NoDup_cons in Hnd as [Hnotin Hnd].
    apply Forall_cons in Hfree as [Hn Hrest]. simpl in Hn.
    simpl. rewrite fs_create_spec. simpl parent_path.
    assert (can_create (dir ++ [n]) (fs s) = true) as ->.
    { unfold can_create. rewrite <- nth_0_hd, (Halloc 0%nat) by (simpl; lia).
      apply bool_decide_eq_true_2, Hn. }
    apply (IH Hnd).
    + simpl. eapply Forall_impl.
      * apply Forall_forall. intros ni Hni. rewrite Forall_forall in Hrest.
        exact (conj (Hrest ni Hni) Hni).
      * intros [n' i'] [Hfree' Hin]. simpl in *.
        rewrite lookup_insert_ne; [exact Hfree'|].
        intros E%app_inv_head. injection E as ->.
        apply Hnotin. apply list_elem_of_fmap. exists (n', i'). done.
    + simpl. intros k Hk. rewrite <- nth_tail. apply Halloc. simpl. lia.
Qed.

(** A registration returns 0 exactly when the place of the directory and
    the places of the files are free and the allocations for the directory
    and for each file succeed; in every other case it returns -ENOMEM. *)
Theorem clock_debug_add_succeeds_iff (clock : clk) (s : state) (b : path) (name : string) :
  debugfs_base s = Some b →
  dir_name clock s = Some name →
  ∃ r s',
    clock_debug_add clock s = Ret r s'
    ∧ (r = 0 ∨ r = - ENOMEM)
    ∧ (r = 0 ↔ room_for clock (b ++ [name]) s).
Proof.
  intros Hb Hn.
  destruct (can_create (b ++ [name]) (fs s)) eqn:Hc.
  - rewrite (clock_debug_add_unfold clock s b name) by assumption.
    rewrite fs_create_spec. simpl parent_path. rewrite Hc.
    set (s1 := set_fs {| fs_dentries := <[b ++ [name] := I_dir]> (fs_dentries (fs s));
                         fs_alloc := tail (fs_alloc (fs s)) |} s).
    destruct (create_in_order_run (b ++ [name]) (clock_files clock) s1)
      as (r & s' & Hrun & _ & Hcases).
    exists r, s'. split; [exact Hrun|].
    apply andb_prop in Hc as [Hhd Hdir]. apply bool_decide_eq_true_1 in Hdir.
    destruct Hcases as [(-> & _ & Hall & Halloc) | (-> & _)].
    + split; [by left|]. split; [intros _ | done].
      split; [exact Hdir|]. split.
      * eapply Forall_impl; [exact Hall|]. intros ni Hni. simpl in Hni.
        apply lookup_insert_None in Hni. apply Hni.
      * intros [|k] Hk; [rewrite nth_0_hd; exact Hhd|].
        rewrite nth_tail. apply Halloc. lia.
    + split; [by right|]. split; [done|].
      intros (_ & Hfree & Halloc). exfalso.
      destruct (create_in_order_ok (b ++ [name]) (clock_files clock)
                  (clock_files_names_NoDup clock) s1) as [s2 Hok].
      * eapply Forall_impl; [exact Hfree|]. intros ni Hni.
        unfold s1. cbn [fs set_fs fs_dentries]. unfold dentry_at in Hni.
        rewrite lookup_insert_ne; [exact Hni | apply path_ne_child].
      * intros k Hk. unfold s1. cbn [fs set_fs fs_alloc].
        rewrite <- nth_tail. apply Halloc. lia.
      * rewrite Hok in Hrun. discriminate.
  - rewrite (clock_debug_add_dir_refused clock s b name) by assumption.
    do 2 eexists. split; [reflexivity|]. split; [by right|].
    split; [done|]. intros (Hdir & _ & Halloc). exfalso.
    unfold can_create in Hc. rewrite <- nth_0_hd, (Halloc 0%nat) in Hc by lia.
    rewrite bool_decide_eq_true_2 in Hc; [discriminate | exact Hdir].
Qed.

(** *** Names that do not fit the buffer *)

Lemma c_string_nonzero (str : string) : Forall (λ c, c ≠ 0) (c_string str).
Proof.
  induction str as [|a str IH]; simpl; [constructor|].
  destruct (byte_of a =? 0) eqn:E; constructor; [lia | exact IH].
Qed.

Lemma lower_in_place_unterminated (buf : list Z) :
  Forall (λ c, c ≠ 0) buf → lower_in_place buf = None.
Proof.
  induction 1 as [|c buf Hc _ IH]; simpl; [reflexivity|].
  destruct (c =? 0) eqn:E; [lia|]. rewrite IH. reflexivity.
Qed.

Lemma length_c_string_nul_free (str : string) :
  nul_free str = true → length (c_string str) = String.length str.
Proof.
  induction str as [|a str IH]; simpl; [reflexivity|].
  intros [Ha Hstr]%andb_prop. apply negb_true_iff in Ha. rewrite Ha.
  simpl. rewrite IH by exact Hstr. reflexivity.
Qed.

Lemma c_string_substring (str : string) :
  nul_free str = true →
  ∀ n, c_string (String.substring 0 n str) = take n (c_string str)
       ∧ nul_free (String.substring 0 n str) = true.
Proof.
  induction str as [|a str IH]; intros Hnul [|n]; try (split; reflexivity).
  simpl in Hnul. apply andb_prop in Hnul as [Ha Hstr].
  destruct (IH Hstr n) as [IH1 IH2].
  apply negb_true_iff in Ha. simpl. rewrite Ha, IH1, IH2. split; reflexivity.
Qed.

(** What [temp] holds after the copy of a name of 49 characters or more:
    the first 49 characters, and behind them the byte the stack held. *)
Lemma strncpy_long (clock : clk) (s : state) (c : Z) :
  nul_free (dbg_name clock) = true →
  (49 ≤ String.length (dbg_name clock))%nat →
  temp_uninitialised s !! 49%nat = Some c →
  strncpy (temp_uninitialised s) (c_string (dbg_name clock)) 49
  = c_string (String.substring 0 49 (dbg_name clock)) ++ [c].
Proof.
  intros Hnul Hlen Hc. unfold strncpy.
  rewrite resize_le by (rewrite length_c_string_nul_free; assumption).
  rewrite (proj1 (c_string_substring _ Hnul 49%nat)).
  rewrite (drop_S _ c 49) by exact Hc.
  rewrite drop_ge; [reflexivity|].
  unfold temp_uninitialised. rewrite length_resize. lia.
Qed.

(** A name of 49 characters or more is cut: when the byte of the stack
    behind the 49 bytes copied happens to be NUL, a registration that
    returns 0 has created the directory named by the first 49 characters of
    dbg_name, lower-cased. *)
Theorem clock_debug_add_long_name (clock : clk) (s s' : state) :
  nul_free (dbg_name clock) = true →
  (49 ≤ String.length (dbg_name clock))%nat →
  temp_uninitialised s !! 49%nat = Some 0 →
  clock_debug_add clock s = Ret 0 s' →
  ∃ b,
    debugfs_base s = Some b
    ∧ dir_name clock s = Some (lowercase (String.substring 0 49 (dbg_name clock)))
    ∧ created_by s s' (b ++ [lowercase (String.substring 0 49 (dbg_name clock))]) I_dir.
Proof.
  intros Hnul Hlen Htemp Hadd.
  assert (dir_name clock s = Some (lowercase (String.substring 0 49 (dbg_name clock))))
    as Hname.
  { unfold dir_name. rewrite (strncpy_long clock s 0) by assumption.
    rewrite lower_in_place_c_string. simpl.
    rewrite string_at_lowered; [reflexivity|].
    apply (c_string_substring _ Hnul). }
  destruct (clock_debug_add_success clock s s' Hadd)
    as (b & name & Hb & Hn & Hc & _ & Hm & _).
  rewrite Hname in Hn. injection Hn as <-.
  exists b. split; [exact Hb|]. split; [exact Hname|].
  apply andb_prop in Hc as [_ Hdir]. apply bool_decide_eq_true_1 in Hdir.
  split; [exact Hdir|].
  unfold dentry_at. rewrite Hm, lookup_with_files_other; [apply lookup_insert_eq|].
  intros n _. apply path_ne_child.
Qed.

(** A name of 49 characters or more is not terminated by the copy: when the
    byte of the stack behind the 49 bytes copied is not NUL, the lower-casing
    loop runs off the end of the buffer. *)
Theorem clock_debug_add_overruns (clock : clk) (s : state) (b : path) (c : Z) :
  nul_free (dbg_name clock) = true →
  (49 ≤ String.length (dbg_name clock))%nat →
  temp_uninitialised s !! 49%nat = Some c → c ≠ 0 →
  debugfs_base s = Some b →
  clock_debug_add clock s = Fault.
Proof.
  intros Hnul Hlen Htemp Hc Hb.
  apply (clock_debug_add_nameless clock s b Hb).
  unfold dir_name. rewrite (strncpy_long clock s c) by assumption.
  rewrite lower_in_place_unterminated; [reflexivity|].
  apply Forall_app. split; [apply c_string_nonzero|].
  constructor; [exact Hc | constructor].
Qed.

(** *** list_rates_show without a sentinel *)

Lemma list_rates_loop_endless (clock : clk) (lr : Z → Z → W → Z * W) (f : Z → Z) :
  list_rate (ops_of clock) = Some lr →
  (∀ n w, lr (id clock) n w = (f n, w)) →
  (∀ n, 0 ≤ n < 2 ^ 32 → 0 ≤ as_int (f n)) →
  ∀ (fuel : nat) (i : Z) (m : seq_file) (s : state),
    list_rates_loop fuel clock i m s = Timeout.
Proof.
  intros Hlr Hpure Hpos. induction fuel as [|fuel IH]; intros i m s; [reflexivity|].
  simpl. unfold mbind, M_bind, call_list_rate.
  rewrite Hlr, external_run, Hpure. simpl.
  assert (0 ≤ as_unsigned i < 2 ^ 32) as Hi
    by (unfold as_unsigned; apply Z.mod_pos_bound; lia).
  destruct (0 <=? as_int (f (as_unsigned i))) eqn:E.
  - apply IH.
  - specialize (Hpos _ Hi). lia.
Qed.

(** The loop of list_rates_show has no bound of its own: when list_rate
    returns a non-negative rate at every index, the function does not return,
    whatever fuel it is given. *)
Theorem list_rates_show_endless
    (m : seq_file) (s : state) (lr : Z → Z → W → Z * W) (f : Z → Z) (fuel : nat) :
  list_rate (ops_of (sf_private m)) = Some lr →
  (∀ n w, lr (id (sf_private m)) n w = (f n, w)) →
  (∀ n, 0 ≤ n < 2 ^ 32 → 0 ≤ as_int (f n)) →
  list_rates_show fuel m s = Timeout.
Proof.
  intros Hlr Hpure Hpos. unfold list_rates_show, mbind, M_bind.
  rewrite (list_rates_loop_endless _ lr f Hlr Hpure Hpos). reflexivity.
Qed.

(** *** Well-formed trees *)

Lemma is_prefix_spec (p q : path) : is_prefix p q = true ↔ ∃ r, q = p ++ r.
Proof.
  split.
  - revert q. induction p as [|a p IH]; intros q Hq; [by exists q|].
    destruct q as [|c q]; [discriminate|]. simpl in Hq.
    case_decide; [|discriminate]. subst.
    destruct (IH q Hq) as [r ->]. by exists r.
  - intros [r ->]. apply is_prefix_app.
Qed.

Lemma is_prefix_extend (p q r : path) :
  is_prefix p q = true → is_prefix p (q ++ r) = true.
Proof.
  intros [r' ->]%is_prefix_spec. rewrite <- app_assoc. apply is_prefix_app.
Qed.

Lemma is_prefix_snoc (p q : path) (n : string) :
  is_prefix p (q ++ [n]) = true → p = q ++ [n] ∨ is_prefix p q = true.
Proof.
  intros [r Hr]%is_prefix_spec.
  destruct r as [|x r _] using rev_ind.
  - left. rewrite app_nil_r in Hr. by symmetry.
  - right. rewrite app_assoc in Hr. apply app_inj_tail in Hr as [-> _].
    apply is_prefix_app.
Qed.

Lemma is_prefix_length (p q : path) :
  is_prefix p q = true → (length p ≤ length q)%nat.
Proof. intros [r ->]%is_prefix_spec. rewrite length_app. lia. Qed.

Lemma tree_ok_insert (m : gmap (list string) inode) (p : path) (n : string) (i : inode) :
  tree_ok m → p = [] ∨ m !! p = Some I_dir → m !! (p ++ [n]) = None →
  tree_ok (<[p ++ [n] := i]> m).
Proof.
  intros Hok Hp Hfree q n' Hq Hsome.
  destruct (decide (p ++ [n] = q ++ [n'])) as [E|Hne].
  - apply app_inj_tail in E as [-> ->].
    destruct Hp as [-> | Hp]; [done|].
    rewrite lookup_insert_ne; [exact Hp | apply not_eq_sym, path_ne_child].
  - rewrite lookup_insert_ne in Hsome by exact Hne.
    pose proof (Hok q n' Hq Hsome) as Hdir.
    rewrite lookup_insert_ne; [exact Hdir|].
    intros <-. rewrite Hfree in Hdir. discriminate.
Qed.

Lemma tree_ok_cut (m m' : gmap (list string) inode) (p : path) :
  tree_ok m →
  (∀ q, m' !! q = if is_prefix p q then None else m !! q) →
  tree_ok m'.
Proof.
  intros Hok Hcut q n Hq Hsome. rewrite Hcut in Hsome.
  destruct (is_prefix p (q ++ [n])) eqn:Hp; [by destruct Hsome|].
  rewrite Hcut.
  destruct (is_prefix p q) eqn:Hpq.
  - rewrite is_prefix_extend in Hp by exact Hpq. discriminate.
  - apply (Hok q n Hq Hsome).
Qed.

Lemma tree_ok_absent_below (m : gmap (list string) inode) (p : path) :
  tree_ok m → p ≠ [] → m !! p = None →
  ∀ q, is_prefix p q = true → m !! q = None.
Proof.
  intros Hok Hp Hnone q. induction q as [|n q IH] using rev_ind; intros Hq.
  - apply is_prefix_length in Hq. destruct p; [done | simpl in Hq; lia].
  - apply is_prefix_snoc in Hq as [-> | Hq]; [exact Hnone|].
    specialize (IH Hq).
    destruct (m !! (q ++ [n])) as [i|] eqn:E; [|reflexivity].
    assert (q ≠ []) as Hqne.
    { intros ->. apply is_prefix_length in Hq. destruct p; [done | simpl in Hq; lia]. }
    rewrite (Hok q n Hqne) in IH by (rewrite E; eauto). discriminate.
Qed.

(** *** clock_debug_init, case by case *)

Local Arguments is_prefix : simpl never.

Lemma clock_debug_init_cases (head : option (list clk)) (s : state) :
  ∃ r s',
    clock_debug_init head s = Ret r s'
    ∧ debug_suspend s' = debug_suspend s ∧ stack s' = stack s
    ∧ ((r = - ENOMEM
        ∧ can_create ["clk"] (fs s) = false
        ∧ fs_dentries (fs s') = fs_dentries (fs s)
        ∧ debugfs_base s' = None ∧ clocks_ptr s' = clocks_ptr s)
       ∨ (r = - ENOMEM
          ∧ can_create ["clk"] (fs s) = true
          ∧ (∀ q, fs_dentries (fs s') !! q
                  = if is_prefix ["clk"] q then None else fs_dentries (fs s) !! q)
          ∧ debugfs_base s' = Some ["clk"] ∧ clocks_ptr s' = clocks_ptr s)
       ∨ (r = 0
          ∧ can_create ["clk"] (fs s) = true
          ∧ fs_dentries (fs s) !! ["clk"; "debug_suspend"] = None
          ∧ fs_dentries (fs s')
            = <[["clk"; "debug_suspend"] := I_u32 (Z.lor S_IRUGO S_IWUSR)]>
                (<[["clk"] := I_dir]> (fs_dentries (fs s)))
          ∧ debugfs_base s' = Some ["clk"] ∧ clocks_ptr s' = head)).
Proof.
  unfold clock_debug_init, debugfs_create_dir, debugfs_create_u32,
    debugfs_remove_recursive, mbind, M_bind, mret, M_ret, modify.
  rewrite fs_create_spec. simpl parent_path. simpl app.
  destruct (can_create ["clk"] (fs s)) eqn:Hroot; simpl.
  - rewrite fs_create_spec. simpl parent_path. simpl app.
    destruct (can_create ["clk"; "debug_suspend"] _) eqn:Hfile; simpl.
    + do 2 eexists. split; [reflexivity|]. split; [reflexivity|].
      split; [reflexivity|]. right. right.
      apply andb_prop in Hfile as [_ Hfree].
      apply bool_decide_eq_true_1 in Hfree. simpl in Hfree.
      rewrite lookup_insert_ne in Hfree by done.
      repeat split; assumption.
    + do 2 eexists. split; [reflexivity|]. split; [reflexivity|].
      split; [reflexivity|]. right. left.
      split; [reflexivity|]. split; [reflexivity|]. split; [|split; reflexivity].
      intros q.
      pose proof (lookup_remove_recursive ["clk"] q
        {| fs_dentries := <[["clk"] := I_dir]> (fs_dentries (fs s));
           fs_alloc := tail (tail (fs_alloc (fs s))) |}) as E.
      simpl in E. simpl. rewrite E.
      destruct (is_prefix ["clk"] q) eqn:Hq; [reflexivity|].
      apply lookup_insert_ne. intros <-. vm_compute in Hq. done.
  - do 2 eexists. split; [reflexivity|]. split; [reflexivity|].
    split; [reflexivity|]. left. repeat split.
Qed.

(** clock_debug_init is not to be run twice: after a run that returned 0, a
    second run returns -ENOMEM, leaves every dentry as it is and sets the
    root handle to NULL, so that from then on every registration is refused
    at once. *)
Theorem clock_debug_init_twice (head head' : option (list clk)) (s s' : state) :
  clock_debug_init head s = Ret 0 s' →
  ∃ s'',
    clock_debug_init head' s' = Ret (- ENOMEM) s''
    ∧ fs_dentries (fs s'') = fs_dentries (fs s')
    ∧ debugfs_base s'' = None
    ∧ clocks_ptr s'' = head
    ∧ ∀ clock, clock_debug_add clock s'' = Ret (- ENOMEM) s''.
Proof.
  intros Hinit.
  destruct (clock_debug_init_cases head s) as (r & s1 & Hrun & _ & _ & Hcases).
  rewrite Hrun in Hinit. injection Hinit as -> ->.
  destruct Hcases as [(? & _) | [(? & _) | (_ & _ & _ & Hm & _ & Hptr)]];
    [discriminate..|].
  destruct (clock_debug_init_cases head' s') as (r & s'' & Hrun' & _ & _ & Hcases).
  assert (can_create ["clk"] (fs s') = false) as Htaken.
  { apply (can_create_taken _ _ I_dir). rewrite Hm.
    rewrite lookup_insert_ne by done. apply lookup_insert_eq. }
  destruct Hcases as [(-> & _ & Hsame & Hbase & Hptr')
                     | [(_ & Hc & _) | (_ & Hc & _)]]; [|congruence..].
  exists s''. split; [exact Hrun'|]. split; [exact Hsame|].
  split; [exact Hbase|]. split; [congruence|].
  intros clock. apply clock_debug_add_null_base, Hbase.
Qed.

Lemma tree_ok_empty : tree_ok ∅.
Proof. intros q n _ [i Hi]. rewrite lookup_empty in Hi. discriminate. Qed.

Lemma clock_debug_init_ok_tree (head : option (list clk)) (s s' : state) :
  tree_ok (fs_dentries (fs s)) →
  clock_debug_init head s = Ret 0 s' →
  tree_ok (fs_dentries (fs s')) ∧ base_live s'.
Proof.
  intros Hok Hinit.
  destruct (clock_debug_init_cases head s) as (r & s1 & Hrun & _ & _ & Hcases).
  rewrite Hrun in Hinit. injection Hinit as -> ->.
  destruct Hcases as [(? & _) | [(? & _) | (_ & Hc & Hfree & Hm & Hb & _)]];
    [discriminate..|].
  apply andb_prop in Hc as [_ Hroot]. apply bool_decide_eq_true_1 in Hroot.
  split.
  - rewrite Hm. apply (tree_ok_insert _ ["clk"] "debug_suspend").
    + apply (tree_ok_insert _ [] "clk"); [exact Hok | by left | exact Hroot].
    + right. apply lookup_insert_eq.
    + rewrite lookup_insert_ne by done. exact Hfree.
  - unfold base_live, dentry_at.
    rewrite Hb, Hm, lookup_insert_ne by done. apply lookup_insert_eq.
Qed.

(** clock_debug_init keeps the tree well-formed whatever happens.  When it
    returns 0 the root handle points to the directory it has made; when it
    fails to create the root the handle is NULL; but when it fails at the
    debug_suspend file, the handle is left pointing to the root directory it
    has just removed. *)
Theorem clock_debug_init_tree (head : option (list clk)) (s : state) :
  tree_ok (fs_dentries (fs s)) →
  ∃ r s',
    clock_debug_init head s = Ret r s'
    ∧ tree_ok (fs_dentries (fs s'))
    ∧ (r = 0 → debugfs_base s' = Some ["clk"] ∧ base_live s')
    ∧ (r ≠ 0 → can_create ["clk"] (fs s) = false → debugfs_base s' = None)
    ∧ (r ≠ 0 → can_create ["clk"] (fs s) = true →
       debugfs_base s' = Some ["clk"] ∧ dentry_at s' ["clk"] = None
       ∧ ¬ base_live s').
Proof.
  intros Hok.
  destruct (clock_debug_init_cases head s) as (r & s' & Hrun & _ & _ & Hcases).
  exists r, s'. split; [exact Hrun|].
  destruct Hcases as [(-> & Hc & Hm & Hb & _)
                     | [(-> & Hc & Hm & Hb & _) | (-> & Hc & Hfree & Hm & Hb & _)]].
  - split; [rewrite Hm; exact Hok|]. split; [done|]. split; [done|]. congruence.
  - split; [eapply tree_ok_cut; eassumption|]. split; [done|].
    split; [congruence|]. intros _ _.
    assert (dentry_at s' ["clk"] = None) as Hgone.
    { unfold dentry_at. rewrite Hm. reflexivity. }
    split; [exact Hb|]. split; [exact Hgone|].
    unfold base_live. rewrite Hb, Hgone. discriminate.
  - apply andb_prop in Hc as [_ Hroot]. apply bool_decide_eq_true_1 in Hroot.
    assert (tree_ok (fs_dentries (fs s'))) as Hok'.
    { rewrite Hm.
      apply (tree_ok_insert _ ["clk"] "debug_suspend").
      - apply (tree_ok_insert _ [] "clk"); [exact Hok | by left | exact Hroot].
      - right. apply lookup_insert_eq.
      - rewrite lookup_insert_ne by done. exact Hfree. }
    split; [exact Hok'|]. split; [|split; done].
    intros _. split; [exact Hb|]. unfold base_live, dentry_at.
    rewrite Hb, Hm, lookup_insert_ne by done. apply lookup_insert_eq.
Qed.

(** *** clock_debug_add and the tree *)

(** What a registration leaves behind, in one of three ways. *)
Lemma clock_debug_add_cases (clock : clk) (s : state) (b : path) (name : string) :
  debugfs_base s = Some b →
  dir_name clock s = Some name →
  ∃ r s',
    clock_debug_add clock s = Ret r s'
    ∧ only_fs_changed s s'
    ∧ ((r = - ENOMEM ∧ can_create (b ++ [name]) (fs s) = false
        ∧ fs_dentries (fs s') = fs_dentries (fs s))
       ∨ (r = - ENOMEM ∧ fs_dentries (fs s) !! (b ++ [name]) = None
          ∧ ∀ q, fs_dentries (fs s') !! q
                 = if is_prefix (b ++ [name]) q then None
                   else fs_dentries (fs s) !! q)
       ∨ (r = 0 ∧ fs_dentries (fs s) !! (b ++ [name]) = None
          ∧ fs_dentries (fs s')
            = with_files (b ++ [name]) (clock_files clock)
                (<[b ++ [name] := I_dir]> (fs_dentries (fs s)))
          ∧ Forall (λ ni, fs_dentries (fs s) !! ((b ++ [name]) ++ [ni.1]) = None)
                   (clock_files clock))).
Proof.
  intros Hb Hn.
  destruct (can_create (b ++ [name]) (fs s)) eqn:Hc.
  - rewrite (clock_debug_add_unfold clock s b name) by assumption.
    rewrite fs_create_spec. simpl parent_path. rewrite Hc.
    destruct (create_in_order_run (b ++ [name]) (clock_files clock)
                (set_fs {| fs_dentries := <[b ++ [name] := I_dir]> (fs_dentries (fs s));
                           fs_alloc := tail (fs_alloc (fs s)) |} s))
      as (r & s' & Hrun & Hframe & Hcases).
    exists r, s'. split; [exact Hrun|]. split; [exact Hframe|].
    apply andb_prop in Hc as [_ Hdir]. apply bool_decide_eq_true_1 in Hdir.
    simpl in Hcases.
    destruct Hcases as [(-> & Hm & Hall & _) | (-> & Hq)]; right; [right | left].
    + split; [reflexivity|]. split; [exact Hdir|]. split; [exact Hm|].
      eapply Forall_impl; [exact Hall|]. intros ni Hni. simpl in Hni.
      apply lookup_insert_None in Hni. apply Hni.
    + split; [reflexivity|]. split; [exact Hdir|]. intros q. rewrite Hq.
      destruct (is_prefix (b ++ [name]) q) eqn:Hp; [reflexivity|].
      apply lookup_insert_ne. intros <-. rewrite is_prefix_refl in Hp. done.
  - rewrite (clock_debug_add_dir_refused clock s b name) by assumption.
    do 2 eexists. split; [reflexivity|]. split; [repeat split|].
    left. repeat split.
Qed.

Lemma tree_ok_with_files (dir : path) (files : list (string * inode)) :
  ∀ m : gmap (list string) inode,
    tree_ok m → m !! dir = Some I_dir →
    Forall (λ ni, m !! (dir ++ [ni.1]) = None) files →
    NoDup files.*1 →
    tree_ok (with_files dir files m).
Proof.
  induction files as [|[n i] rest IH]; intros m Hok Hdir Hfree Hnd; [exact Hok|].
  apply Forall_cons in Hfree as [Hn Hrest]. simpl in Hn.
  rewrite fmap_cons in Hnd. apply NoDup_cons in Hnd as [Hnotin Hnd].
  change (tree_ok (with_files dir rest (<[dir ++ [n] := i]> m))).
  apply IH; [| | |exact Hnd].
  - apply tree_ok_insert; [exact Hok | by right | exact Hn].
  - rewrite lookup_insert_ne; [exact Hdir | apply not_eq_sym, path_ne_child].
  - rewrite Forall_forall in Hrest. apply Forall_forall. intros [n' i'] Hin.
    simpl. rewrite lookup_insert_ne; [exact (Hrest _ Hin)|].
    intros E%app_inv_head. injection E as ->.
    apply Hnotin. apply list_elem_of_fmap. exists (n', i'). done.
Qed.

Lemma clock_debug_add_tree (clock : clk) (s s' : state) (r : Z) :
  tree_ok (fs_dentries (fs s)) → base_live s →
  clock_debug_add clock s = Ret r s' →
  tree_ok (fs_dentries (fs s')) ∧ base_live s'.
Proof.
  intros Hok Hlive Hadd.
  destruct (debugfs_base s) as [b|] eqn:Hb.
  2:{ rewrite clock_debug_add_null_base in Hadd by exact Hb.
      injection Hadd as _ <-. split; [exact Hok|]. unfold base_live. by rewrite Hb. }
  destruct (dir_name clock s) as [name|] eqn:Hn.
  2:{ rewrite (clock_debug_add_nameless clock s b) in Hadd by assumption.
      discriminate. }
  unfold base_live in Hlive. rewrite Hb in Hlive. unfold dentry_at in Hlive.
  destruct (clock_debug_add_cases clock s b name Hb Hn)
    as (r' & s1 & Hrun & Hframe & Hcases).
  rewrite Hrun in Hadd. injection Hadd as -> ->.
  destruct Hframe as (_ & _ & Hbase & _).
  unfold base_live, dentry_at. rewrite Hbase, Hb.
  assert (is_prefix (b ++ [name]) b = false) as Hnp.
  { destruct (is_prefix (b ++ [name]) b) eqn:E; [|reflexivity].
    apply is_prefix_length in E. rewrite length_app in E. simpl in E. lia. }
  destruct Hcases as [(_ & _ & Hm) | [(_ & Hdir & Hq) | (_ & Hdir & Hm & Hfree)]].
  - rewrite Hm. split; assumption.
  - split; [eapply tree_ok_cut; eassumption|]. rewrite Hq, Hnp. exact Hlive.
  - rewrite Hm. split.
    + apply tree_ok_with_files.
      * apply tree_ok_insert; [exact Hok | by right | exact Hdir].
      * apply lookup_insert_eq.
      * eapply Forall_impl; [exact Hfree|]. intros ni Hni. simpl in Hni.
        rewrite lookup_insert_ne; [exact Hni | apply path_ne_child].
      * apply clock_files_names_NoDup.
    + rewrite lookup_with_files_other.
      * rewrite lookup_insert_ne; [exact Hlive | apply not_eq_sym, path_ne_child].
      * intros n _ E. apply (f_equal length) in E.
        rewrite !length_app in E. simpl in E. lia.
Qed.

(** A registration, whether it succeeds or fails, keeps the tree
    well-formed and the root handle pointing to a directory that exists,
    provided they were so before. *)
Theorem clock_debug_add_keeps_tree (clock : clk) (s s' : state) (r : Z) :
  tree_ok (fs_dentries (fs s)) → base_live s →
  clock_debug_add clock s = Ret r s' →
  tree_ok (fs_dentries (fs s')) ∧ base_live s'.
Proof. apply clock_debug_add_tree. Qed.

(** On a well-formed tree a registration that fails is undone completely:
    whatever the step that failed, the dentries are exactly those there were
    before the call. *)
Theorem clock_debug_add_failure_restores (clock : clk) (s s' : state) (r : Z) :
  tree_ok (fs_dentries (fs s)) →
  clock_debug_add clock s = Ret r s' → r ≠ 0 →
  fs_dentries (fs s') = fs_dentries (fs s) ∧ only_fs_changed s s'.
Proof.
  intros Hok Hadd Hr.
  destruct (debugfs_base s) as [b|] eqn:Hb.
  2:{ rewrite clock_debug_add_null_base in Hadd by exact Hb.
      injection Hadd as _ <-. split; [reflexivity | apply only_fs_changed_refl]. }
  destruct (dir_name clock s) as [name|] eqn:Hn.
  2:{ rewrite (clock_debug_add_nameless clock s b) in Hadd by assumption.
      discriminate. }
  destruct (clock_debug_add_cases clock s b name Hb Hn)
    as (r' & s1 & Hrun & Hframe & Hcases).
  rewrite Hrun in Hadd. injection Hadd as -> ->.
  split; [|exact Hframe].
  destruct Hcases as [(_ & _ & Hm) | [(_ & Hdir & Hq) | (-> & _)]];
    [exact Hm | | done].
  apply map_eq. intros q. rewrite Hq.
  destruct (is_prefix (b ++ [name]) q) eqn:Hp; [|reflexivity].
  symmetry. apply (tree_ok_absent_below _ (b ++ [name])); try assumption.
  intros E. apply (f_equal length) in E. rewrite length_app in E. simpl in E. lia.
Qed.

(** *** The files of a registered clock *)

Lemma with_files_lookup_inv (dir : path) (files : list (string * inode)) :
  ∀ (m : gmap (list string) inode) (q : path) (i : inode),
    with_files dir files m !! q = Some i →
    m !! q = Some i ∨ ∃ n, q = dir ++ [n] ∧ (n, i) ∈ files.
Proof.
  induction files as [|[n i'] rest IH]; intros m q i Hq; [by left|].
  change (with_files dir rest (<[dir ++ [n] := i']> m) !! q = Some i) in Hq.
  apply IH in Hq as [Hq | (n' & -> & Hin)].
  - apply lookup_insert_Some in Hq as [[<- <-] | [_ Hq]].
    + right. exists n. split; [reflexivity | apply list_elem_of_here].
    + by left.
  - right. exists n'. split; [reflexivity | by apply list_elem_of_further].
Qed.

(** Every file a registration has created is one of [clock_files]. *)
Lemma created_file_origin (clock : clk) (s s' : state) (q : path)
    (mode : Z) (data : clk) (fops : fops_ref) :
  clock_debug_add clock s = Ret 0 s' →
  dentry_at s q = None →
  dentry_at s' q = Some (I_file mode data fops) →
  ∃ n, (n, I_file mode data fops) ∈ clock_files clock.
Proof.
  intros Hadd Hold Hnew.
  destruct (clock_debug_add_success clock s s' Hadd)
    as (b & name & _ & _ & _ & _ & Hm & _).
  unfold dentry_at in *. rewrite Hm in Hnew.
  apply with_files_lookup_inv in Hnew as [Hnew | (n & _ & Hin)]; [|by exists n].
  apply lookup_insert_Some in Hnew as [[_ ?] | [_ Hnew]]; [discriminate|].
  rewrite Hold in Hnew. discriminate.
Qed.

Ltac file_cases Hin :=
  unfold clock_files in Hin;
  destruct (measure_rate (ops_of _)) eqn:?, (list_rate (ops_of _)) eqn:?;
  cbn in Hin;
  repeat (apply elem_of_cons in Hin as [Hin | Hin]; [simplify_eq|]);
  try (by apply elem_of_nil in Hin).

(** Every file a registration has created has the clock as its private
    data, may be read by all, and may be written (by its owner) exactly when
    its operations have a set handler: the rate and enable files. *)
Theorem clock_debug_add_file_modes (clock : clk) (s s' : state) (q : path)
    (mode : Z) (data : clk) (fops : fops_ref) :
  clock_debug_add clock s = Ret 0 s' →
  dentry_at s q = None →
  dentry_at s' q = Some (I_file mode data fops) →
  data = clock
  ∧ Z.land mode S_IRUGO = S_IRUGO
  ∧ (Z.land mode S_IWUSR ≠ 0
     ↔ ∃ a, attr_of fops = Some a ∧ is_Some (attr_set a)).
Proof.
  intros Hadd Hold Hnew.
  destruct (created_file_origin clock s s' q mode data fops Hadd Hold Hnew)
    as [n Hin].
  file_cases Hin;
    (split; [reflexivity|]); (split; [reflexivity|]);
    (split;
     [ intros Hw;
       first [ exfalso; apply Hw; reflexivity
             | eexists; split; [reflexivity | simpl; by eexists] ]
     | intros (a & Ha & [set Hset]);
       first [ discriminate Ha
             | injection Ha as <-;
               first [ simpl in Hset; discriminate Hset
                     | intros E; vm_compute in E; discriminate E ] ] ]).
Qed.

Lemma list_rates_loop_no_fault (clock : clk) :
  is_Some (list_rate (ops_of clock)) →
  ∀ (fuel : nat) (i : Z) (m : seq_file) (s : state),
    list_rates_loop fuel clock i m s ≠ Fault.
Proof.
  intros [lr Hlr]. induction fuel as [|fuel IH]; intros i m s; [discriminate|].
  simpl. unfold mbind, M_bind, call_list_rate. rewrite Hlr, external_run.
  destruct (0 <=? _); [apply IH | discriminate].
Qed.

(** A registration guards the two operations that may be NULL.  The get
    handler of the measure file and the show function of the list_rates
    file call measure_rate and list_rate with no test of their own; a
    registration that returned 0 has created a measure file only for a clock
    whose measure_rate is set, so that a read of it returns, with status 0,
    on every state, and a list_rates file only for a clock whose list_rate
    is set, so that its show function never calls through a NULL pointer
    (it returns, or its loop is still running). *)
Theorem clock_debug_add_files_are_safe (clock : clk) (s s' : state) :
  clock_debug_add clock s = Ret 0 s' →
  (∀ q mode data,
     dentry_at s q = None →
     dentry_at s' q = Some (I_file mode data clock_measure_fops) →
     data = clock
     ∧ is_Some (measure_rate (ops_of data))
     ∧ ∀ st, ∃ v st', clock_debug_measure_get data st = Ret (0, v) st')
  ∧ (∀ q mode data,
       dentry_at s q = None →
       dentry_at s' q = Some (I_file mode data list_rates_fops) →
       data = clock
       ∧ is_Some (list_rate (ops_of data))
       ∧ ∀ fuel st, list_rates_show fuel (list_rates_open data) st ≠ Fault).
Proof.
  intros Hadd. split; intros q mode data Hold Hnew;
    destruct (created_file_origin clock s s' q mode data _ Hadd Hold Hnew)
      as [n Hin].
  - assert (data = clock ∧ is_Some (measure_rate (ops_of clock))) as [-> Hmr].
    { file_cases Hin; eauto. }
    split; [reflexivity|]. split; [exact Hmr|].
    intros st. destruct Hmr as [f Hf].
    unfold clock_debug_measure_get, call_measure_rate, mbind, M_bind, mret, M_ret.
    rewrite Hf, external_run. eauto.
  - assert (data = clock ∧ is_Some (list_rate (ops_of clock))) as [-> Hlr].
    { file_cases Hin; eauto. }
    split; [reflexivity|]. split; [exact Hlr|].
    intros fuel st. unfold list_rates_show, mbind, M_bind, mret, M_ret.
    pose proof (list_rates_loop_no_fault clock Hlr fuel 0
                  (list_rates_open clock) st) as Hloop.
    simpl sf_private.
    destruct (list_rates_loop fuel clock 0 (list_rates_open clock) st);
      [discriminate | done | discriminate].
Qed.

(** clock_debug_init followed by clock_debug_add gives the layout of the
    interface description: the root directory clk with the debug_suspend
    switch, and in it the directory of the clock, named by its lower-cased
    name (which fits the buffer), with the rate, enable and is_local files. *)
Theorem init_then_add_layout
    (head : option (list clk)) (clock : clk) (s s1 s2 : state) :
  nul_free (dbg_name clock) = true →
  (String.length (dbg_name clock) < 49)%nat →
  clock_debug_init head s = Ret 0 s1 →
  clock_debug_add clock s1 = Ret 0 s2 →
  let name := lowercase (dbg_name clock) in
  dentry_at s2 ["clk"] = Some I_dir
  ∧ dentry_at s2 ["clk"; "debug_suspend"] = Some (I_u32 (Z.lor S_IRUGO S_IWUSR))
  ∧ name ≠ "debug_suspend"
  ∧ dentry_at s2 ["clk"; name] = Some I_dir
  ∧ dentry_at s2 ["clk"; name; "rate"]
    = Some (I_file (Z.lor S_IRUGO S_IWUSR) clock clock_rate_fops)
  ∧ dentry_at s2 ["clk"; name; "enable"]
    = Some (I_file (Z.lor S_IRUGO S_IWUSR) clock clock_enable_fops)
  ∧ dentry_at s2 ["clk"; name; "is_local"]
    = Some (I_file S_IRUGO clock clock_local_fops)
  ∧ clocks_ptr s2 = head.
Proof.
  intros Hnul Hlen Hinit Hadd name.
  destruct (clock_debug_init_cases head s) as (r & s1' & Hrun & _ & _ & Hcases).
  rewrite Hrun in Hinit. injection Hinit as -> ->.
  destruct Hcases as [(? & _) | [(? & _) | (_ & _ & _ & Hm1 & Hb1 & Hptr)]];
    [discriminate..|].
  destruct (clock_debug_add_success clock s1 s2 Hadd)
    as (b & name' & Hb & Hn & Hc & Hframe & Hm & _).
  rewrite Hb1 in Hb. injection Hb as <-.
  rewrite dir_name_short in Hn by assumption. injection Hn as <-. fold name in Hm, Hc.
  apply andb_prop in Hc as [_ Hdir]. apply bool_decide_eq_true_1 in Hdir.
  simpl app in Hm, Hdir.
  assert (name ≠ "debug_suspend") as Hne.
  { intros E. rewrite E, Hm1, lookup_insert_eq in Hdir. discriminate. }
  assert (∀ q, length q ≤ 2 → q ≠ ["clk"; name] →
               dentry_at s2 q = fs_dentries (fs s1) !! q)%nat as Hold.
  { intros q Hlen2 Hq. unfold dentry_at. rewrite Hm, lookup_with_files_other.
    - apply lookup_insert_ne. congruence.
    - intros n _ ->. simpl in Hlen2. lia. }
  assert (∀ n i, (n, i) ∈ clock_files clock →
                 dentry_at s2 ["clk"; name; n] = Some i) as Hin.
  { intros n i Hi. unfold dentry_at. rewrite Hm.
    apply (lookup_with_files_in ["clk"; name]);
      [apply clock_files_names_NoDup | exact Hi]. }
  destruct Hframe as (_ & _ & _ & _ & Hptr2 & _).
  split.
  { rewrite Hold by (simpl; try lia; congruence). rewrite Hm1.
    rewrite lookup_insert_ne by done. apply lookup_insert_eq. }
  split.
  { rewrite Hold by (simpl; try lia; congruence). rewrite Hm1.
    apply lookup_insert_eq. }
  split; [exact Hne|]. split.
  { unfold dentry_at. rewrite Hm, lookup_with_files_other; [apply lookup_insert_eq|].
    intros n _ E. apply (f_equal length) in E. simpl in E. lia. }
  unfold clock_files in Hin.
  repeat split; try (apply Hin; repeat first
    [apply list_elem_of_here | apply list_elem_of_further]).
  congruence.
Qed.

End Further.

(** ** The file at work on the small platform *)

Section Runs.

Import Example.

Local Existing Instance platform.

(** A run is checked through the value it returns; the state it leaves is
    [state_after]. *)
Lemma run_returns {A : Type} (m : M A) (s : state) (a : A) :
  match m s with Ret a' _ => Some a' | _ => None end = Some a →
  m s = Ret a (state_after m s).
Proof.
  unfold state_after. destruct (m s); intros [=]; subst; reflexivity.
Qed.

Ltac by_running :=
  lazymatch goal with
  | |- _ = Ret _ ?s' => try unfold s'
  end;
  apply run_returns; vm_compute; reflexivity.

Example init_creates_root_and_switch :
  clock_debug_init (Some clocks) s0 = Ret 0 s_ready
  ∧ debugfs_base s_ready = Some ["clk"]
  ∧ dentry_at s_ready ["clk"] = Some I_dir
  ∧ dentry_at s_ready ["clk"; "debug_suspend"] = Some (I_u32 420)
  ∧ length (dentry_names s_ready) = 2%nat.
Proof.
  split; [by_running|].
  vm_compute. repeat split; reflexivity.
Qed.

Example init_without_memory :
  clock_debug_init (Some clocks) (boot [5; 9] (failing_fs [true; false]) [])
  = Ret (-12) (set_debugfs_base (Some ["clk"]) (boot [5; 9] empty_fs [])).
Proof. vm_compute. reflexivity. Qed.

Example add_local_clock :
  clock_debug_add adm_clk s_ready = Ret 0 s_adm
  ∧ dentry_names s_adm
    ≡ₚ [["clk"]; ["clk"; "debug_suspend"]; ["clk"; "adm_clk"];
        ["clk"; "adm_clk"; "rate"]; ["clk"; "adm_clk"; "enable"];
        ["clk"; "adm_clk"; "is_local"]; ["clk"; "adm_clk"; "measure"];
        ["clk"; "adm_clk"; "list_rates"]].
Proof.
  split; [by_running|].
  apply (bool_decide_unpack _). vm_compute. exact I.
Qed.

Example add_remote_clock :
  dentry_names (state_after (clock_debug_add ebi1_clk) s_ready)
  ≡ₚ [["clk"]; ["clk"; "debug_suspend"]; ["clk"; "ebi1_clk"];
      ["clk"; "ebi1_clk"; "rate"]; ["clk"; "ebi1_clk"; "enable"];
      ["clk"; "ebi1_clk"; "is_local"]].
Proof. apply (bool_decide_unpack _). vm_compute. exact I. Qed.

Example add_fails_on_second_file :
  clock_debug_add vfe_clk s_tight = Ret (-12) s_failed
  ∧ dentry_names s_failed ≡ₚ dentry_names s_tight
  ∧ dentry_at s_failed ["clk"; "vfe_clk"] = None
  ∧ dentry_at s_failed ["clk"; "vfe_clk"; "rate"] = None.
Proof.
  split; [by_running|].
  split; [apply (bool_decide_unpack _); vm_compute; exact I|].
  vm_compute. split; reflexivity.
Qed.

Example list_rates_of_local_clock :
  ∃ s', list_rates_show 10 (list_rates_open adm_clk) s0
        = Ret (0, {| sf_private := adm_clk;
                     sf_buf := "19200000" +:+ newline +:+ "38400000" +:+ newline
                               +:+ "76800000" +:+ newline |}) s'.
Proof. eexists. vm_compute. reflexivity. Qed.

Example list_rates_short_of_fuel :
  list_rates_show 3 (list_rates_open adm_clk) s0 = Timeout.
Proof. vm_compute. reflexivity. Qed.

Example print_enabled_report :
  printed (since s_logging (state_after clock_debug_print_enabled s_logging))
  = ["Enabled clocks:" +:+ newline;
     tab +:+ "EBI1_CLK" +:+ newline;
     tab +:+ "VFE_CLK" +:+ newline;
     "Enabled clock count: 2" +:+ newline].
Proof. vm_compute. reflexivity. Qed.

(** ** The theorems at concrete inputs *)

(** C1 as worded does not hold: written to the rate file of a clock whose
    flags are CLK_MAX alone, the handler calls clk_set_max_rate and then
    clk_set_rate, two operations and not the selected one. *)
Lemma rate_set_calls_two_operations :
  calls (since s0 (state_after (clock_debug_rate_set pbus_clk 19200000) s0))
  = [Call_clk_set_max_rate pbus_clk 19200000;
     Call_clk_set_rate pbus_clk 19200000]
  ∧ ¬ rate_set_invokes_selected pbus_clk 19200000 s0.
Proof.
  split; [vm_compute; reflexivity|].
  intros (r & s' & Hrun & Hcalls).
  vm_compute in Hrun. injection Hrun as <- <-.
  vm_compute in Hcalls. discriminate Hcalls.
Qed.

Lemma clock_debug_add_failure_cleanup_witness :
  ∃ r s',
    clock_debug_add vfe_clk s_tight = Ret r s'
    ∧ only_fs_changed s_tight s'
    ∧ (r = 0 ∨ r = - ENOMEM)
    ∧ (∀ k, (k < length (clock_files vfe_clk))%nat →
            nth (S k) (fs_alloc (fs s_tight)) true = false → r = - ENOMEM)
    ∧ (r ≠ 0 →
         (∀ q, is_prefix (["clk"] ++ ["vfe_clk"]) q = true → dentry_at s' q = None)
         ∧ (∀ q, is_prefix (["clk"] ++ ["vfe_clk"]) q = false → untouched s_tight s' q)
         ∧ (∀ other q, dentry_at s_tight (["clk"] ++ [other]) = Some I_dir →
                       is_prefix (["clk"] ++ [other]) q = true →
                       untouched s_tight s' q)).
Proof.
  apply (clock_debug_add_failure_cleanup vfe_clk s_tight ["clk"] "vfe_clk").
  - vm_compute. reflexivity.
  - vm_compute. reflexivity.
  - vm_compute. reflexivity.
Defined.

Lemma clock_debug_add_files_witness :
  clock_debug_add ebi1_clk s_adm
  = Ret 0 (state_after (clock_debug_add ebi1_clk) s_adm)
  ∧ ∃ b name,
      debugfs_base s_adm = Some b
      ∧ dir_name ebi1_clk s_adm = Some name
      ∧ created_by s_adm (state_after (clock_debug_add ebi1_clk) s_adm)
          (b ++ [name]) I_dir
      ∧ created_by s_adm (state_after (clock_debug_add ebi1_clk) s_adm)
          (b ++ [name] ++ ["rate"])
          (I_file (Z.lor S_IRUGO S_IWUSR) ebi1_clk clock_rate_fops)
      ∧ created_by s_adm (state_after (clock_debug_add ebi1_clk) s_adm)
          (b ++ [name] ++ ["enable"])
          (I_file (Z.lor S_IRUGO S_IWUSR) ebi1_clk clock_enable_fops)
      ∧ created_by s_adm (state_after (clock_debug_add ebi1_clk) s_adm)
          (b ++ [name] ++ ["is_local"])
          (I_file S_IRUGO ebi1_clk clock_local_fops)
      ∧ ((∃ i, created_by s_adm (state_after (clock_debug_add ebi1_clk) s_adm)
                 (b ++ [name] ++ ["measure"]) i)
         ↔ is_Some (measure_rate (ops_of ebi1_clk)))
      ∧ match measure_rate (ops_of ebi1_clk) with
        | Some _ => created_by s_adm (state_after (clock_debug_add ebi1_clk) s_adm)
                      (b ++ [name] ++ ["measure"])
                      (I_file S_IRUGO ebi1_clk clock_measure_fops)
        | None => untouched s_adm (state_after (clock_debug_add ebi1_clk) s_adm)
                    (b ++ [name] ++ ["measure"])
        end
      ∧ ((∃ i, created_by s_adm (state_after (clock_debug_add ebi1_clk) s_adm)
                 (b ++ [name] ++ ["list_rates"]) i)
         ↔ is_Some (list_rate (ops_of ebi1_clk)))
      ∧ match list_rate (ops_of ebi1_clk) with
        | Some _ => created_by s_adm (state_after (clock_debug_add ebi1_clk) s_adm)
                      (b ++ [name] ++ ["list_rates"])
                      (I_file S_IRUGO ebi1_clk list_rates_fops)
        | None => untouched s_adm (state_after (clock_debug_add ebi1_clk) s_adm)
                    (b ++ [name] ++ ["list_rates"])
        end.
Proof.
  assert (clock_debug_add ebi1_clk s_adm
          = Ret 0 (state_after (clock_debug_add ebi1_clk) s_adm))
    as Hrun by by_running.
  split; [exact Hrun|].
  exact (clock_debug_add_files ebi1_clk s_adm _ Hrun).
Defined.

Lemma list_rates_show_output_witness :
  ∃ m' s',
    list_rates_show 10 (list_rates_open adm_clk) s0 = Ret (0, m') s'
    ∧ sf_private m' = sf_private (list_rates_open adm_clk)
    ∧ sf_buf m' = sf_buf (list_rates_open adm_clk)
                  +:+ rate_lines ((λ i, as_int (plan_rate i)) <$> seqZ 0 3)
    ∧ call_log (since s0 s')
      = (λ i, (Call_list_rate (ops (sf_private (list_rates_open adm_clk)))
                              (id (sf_private (list_rates_open adm_clk))) i,
               as_int (plan_rate i))) <$> seqZ 0 (3 + 1)
    ∧ printed (since s0 s') = []
    ∧ world s' = world s0 ∧ fs s' = fs s0.
Proof.
  apply (list_rates_show_output (list_rates_open adm_clk) s0
           local_list_rate plan_rate 3 10).
  - reflexivity.
  - intros n w. reflexivity.
  - lia.
  - intros j Hj.
    assert (j = 0 ∨ j = 1 ∨ j = 2) as [-> | [-> | ->]] by lia;
      vm_compute; discriminate.
  - vm_compute. reflexivity.
  - vm_compute. lia.
Defined.

Lemma clock_debug_print_enabled_scan_witness :
  debug_suspend s_logging ≠ 0
  ∧ ∃ rs s',
      clock_debug_print_enabled s_logging = Ret tt s'
      ∧ rs = (scan_answers clocks (world s_logging)).1
      ∧ world s' = (scan_answers clocks (world s_logging)).2
      ∧ length rs = length clocks
      ∧ call_log (since s_logging s')
        = zip_with (λ c r, (Call_is_enabled (ops c) (id c), r)) clocks rs
      ∧ printed (since s_logging s') = enabled_report (answered_on clocks rs)
      ∧ fs s' = fs s_logging ∧ debugfs_base s' = debugfs_base s_logging
      ∧ debug_suspend s' = debug_suspend s_logging
      ∧ clocks_ptr s' = clocks_ptr s_logging.
Proof.
  assert (debug_suspend s_logging ≠ 0) as Hon by (vm_compute; discriminate).
  split; [exact Hon|].
  apply (proj2 (clock_debug_print_enabled_scan s_logging) Hon clocks).
  - vm_compute. reflexivity.
  - vm_compute. discriminate.
Defined.

(** C9 as worded does not hold: the registration of a clock whose name has
    61 characters succeeds (here with a NUL found right behind the 49 bytes
    copied), and the directory it creates is named by the first 49
    characters only; no directory carries the whole lower-cased name. *)
Lemma long_name_is_cut :
  nul_free (dbg_name long_clk) = true
  ∧ clock_debug_add long_clk s_ready = Ret 0 s_long
  ∧ dentry_at s_long ["clk"; "a_clock_with_a_name_that_is_longer_than_the_fifty"]
    = Some I_dir
  ∧ ¬ dir_is_lowercased_name long_clk s_ready s_long.
Proof.
  split; [vm_compute; reflexivity|].
  split; [by_running|].
  split; [vm_compute; reflexivity|].
  intros (b & Hb & _ & Hdir).
  vm_compute in Hb. injection Hb as <-.
  vm_compute in Hdir. discriminate Hdir.
Qed.

Lemma clock_debug_add_dir_name_witness :
  ∃ b,
    debugfs_base s_ready = Some b
    ∧ created_by s_ready s_adm (b ++ [lowercase (dbg_name adm_clk)]) I_dir
    ∧ ∀ q, is_prefix (b ++ [lowercase (dbg_name adm_clk)]) q = false →
           untouched s_ready s_adm q.
Proof.
  apply (clock_debug_add_dir_name adm_clk s_ready s_adm).
  - vm_compute. reflexivity.
  - vm_compute. lia.
  - by_running.
Defined.

Lemma clock_debug_add_without_root_witness :
  debugfs_base s0 = None
  ∧ clock_debug_add adm_clk s0 = Ret (- ENOMEM) s0.
Proof.
  split; [reflexivity|].
  apply (clock_debug_add_without_root adm_clk s0).
  reflexivity.
Defined.

(** ** More runs *)

Lemma s_ready_tree : tree_ok (fs_dentries (fs s_ready)) ∧ base_live s_ready.
Proof.
  apply (clock_debug_init_ok_tree (Some clocks) s0);
    [apply tree_ok_empty | by_running].
Qed.

Lemma s_adm_tree : tree_ok (fs_dentries (fs s_adm)) ∧ base_live s_adm.
Proof.
  destruct s_ready_tree as [Hok Hlive].
  apply (clock_debug_add_tree adm_clk s_ready s_adm 0 Hok Hlive). by_running.
Qed.

Lemma s_tight_tree : tree_ok (fs_dentries (fs s_tight)).
Proof.
  destruct s_adm_tree as [Hok Hlive].
  assert (clock_debug_add ebi1_clk s_adm
          = Ret 0 (state_after (clock_debug_add ebi1_clk) s_adm)) as Hrun
    by by_running.
  destruct (clock_debug_add_tree ebi1_clk s_adm _ 0 Hok Hlive Hrun) as [Hok' _].
  exact Hok'.
Qed.

Lemma clock_debug_add_twice_witness :
  ∃ s'',
    clock_debug_add adm_clk s_tight = Ret (- ENOMEM) s''
    ∧ fs_dentries (fs s'') = fs_dentries (fs s_tight)
    ∧ only_fs_changed s_tight s''.
Proof.
  assert (clock_debug_add ebi1_clk s_adm
          = Ret 0 (state_after (clock_debug_add ebi1_clk) s_adm)) as Hebi
    by by_running.
  apply (clock_debug_add_twice adm_clk s_ready s_adm s_tight).
  - vm_compute. reflexivity.
  - vm_compute. lia.
  - by_running.
  - reflexivity.
  - exact (clock_debug_add_keeps_dentries ebi1_clk s_adm _ Hebi).
Defined.

Lemma clock_debug_add_case_collision_witness :
  ∃ s'',
    clock_debug_add adm_mixed_clk s_adm = Ret (- ENOMEM) s''
    ∧ fs_dentries (fs s'') = fs_dentries (fs s_adm)
    ∧ only_fs_changed s_adm s''.
Proof.
  apply (clock_debug_add_case_collision adm_clk adm_mixed_clk s_ready s_adm).
  - vm_compute. reflexivity.
  - vm_compute. lia.
  - vm_compute. reflexivity.
  - vm_compute. lia.
  - vm_compute. reflexivity.
  - by_running.
Defined.

Lemma clock_debug_add_succeeds_iff_witness :
  ∃ r s',
    clock_debug_add adm_clk s_ready = Ret r s'
    ∧ (r = 0 ∨ r = - ENOMEM)
    ∧ (r = 0 ↔ room_for adm_clk (["clk"] ++ ["adm_clk"]) s_ready).
Proof.
  apply (clock_debug_add_succeeds_iff adm_clk s_ready ["clk"] "adm_clk").
  - vm_compute. reflexivity.
  - vm_compute. reflexivity.
Defined.

Lemma clock_debug_add_long_name_witness :
  ∃ b,
    debugfs_base s_ready = Some b
    ∧ dir_name long_clk s_ready
      = Some (lowercase (String.substring 0 49 (dbg_name long_clk)))
    ∧ created_by s_ready s_long
        (b ++ [lowercase (String.substring 0 49 (dbg_name long_clk))]) I_dir.
Proof.
  apply (clock_debug_add_long_name long_clk s_ready s_long).
  - vm_compute. reflexivity.
  - vm_compute. lia.
  - vm_compute. reflexivity.
  - by_running.
Defined.

Lemma clock_debug_add_overruns_witness :
  clock_debug_add long_clk s_dirty = Fault.
Proof.
  apply (clock_debug_add_overruns long_clk s_dirty ["clk"] 65).
  - vm_compute. reflexivity.
  - vm_compute. lia.
  - vm_compute. reflexivity.
  - lia.
  - vm_compute. reflexivity.
Defined.

Lemma list_rates_show_endless_witness :
  list_rates_show (P := endless_platform) 1000 (list_rates_open adm_clk) s_endless
  = Timeout.
Proof.
  apply (list_rates_show_endless (P := endless_platform)
           (list_rates_open adm_clk) s_endless endless_list_rate
           (λ _, 19200000) 1000).
  - reflexivity.
  - intros n w. reflexivity.
  - intros n Hn. vm_compute. discriminate.
Defined.

Lemma clock_debug_init_twice_witness :
  ∃ s'',
    clock_debug_init None s_ready = Ret (- ENOMEM) s''
    ∧ fs_dentries (fs s'') = fs_dentries (fs s_ready)
    ∧ debugfs_base s'' = None
    ∧ clocks_ptr s'' = Some clocks
    ∧ ∀ clock, clock_debug_add clock s'' = Ret (- ENOMEM) s''.
Proof.
  apply (clock_debug_init_twice (Some clocks) None s0 s_ready). by_running.
Defined.

Lemma clock_debug_init_tree_witness :
  ∃ r s',
    clock_debug_init (Some clocks) s0 = Ret r s'
    ∧ tree_ok (fs_dentries (fs s'))
    ∧ (r = 0 → debugfs_base s' = Some ["clk"] ∧ base_live s')
    ∧ (r ≠ 0 → can_create ["clk"] (fs s0) = false → debugfs_base s' = None)
    ∧ (r ≠ 0 → can_create ["clk"] (fs s0) = true →
       debugfs_base s' = Some ["clk"] ∧ dentry_at s' ["clk"] = None
       ∧ ¬ base_live s').
Proof.
  apply (clock_debug_init_tree (Some clocks) s0). apply tree_ok_empty.
Defined.

Lemma clock_debug_add_keeps_tree_witness :
  tree_ok (fs_dentries (fs s_adm)) ∧ base_live s_adm.
Proof.
  apply (clock_debug_add_keeps_tree adm_clk s_ready s_adm 0).
  - apply s_ready_tree.
  - apply s_ready_tree.
  - by_running.
Defined.

Lemma clock_debug_add_failure_restores_witness :
  fs_dentries (fs s_failed) = fs_dentries (fs s_tight)
  ∧ only_fs_changed s_tight s_failed.
Proof.
  apply (clock_debug_add_failure_restores vfe_clk s_tight s_failed (-12)).
  - apply s_tight_tree.
  - by_running.
  - lia.
Defined.

Lemma clock_debug_add_file_modes_witness :
  adm_clk = adm_clk
  ∧ Z.land (Z.lor S_IRUGO S_IWUSR) S_IRUGO = S_IRUGO
  ∧ (Z.land (Z.lor S_IRUGO S_IWUSR) S_IWUSR ≠ 0
     ↔ ∃ a, attr_of clock_rate_fops = Some a ∧ is_Some (attr_set a)).
Proof.
  apply (clock_debug_add_file_modes adm_clk s_ready s_adm
           ["clk"; "adm_clk"; "rate"]).
  - by_running.
  - vm_compute. reflexivity.
  - vm_compute. reflexivity.
Defined.

Lemma clock_debug_add_files_are_safe_witness :
  (adm_clk = adm_clk
   ∧ is_Some (measure_rate (ops_of adm_clk))
   ∧ ∀ st, ∃ v st', clock_debug_measure_get adm_clk st = Ret (0, v) st')
  ∧ (adm_clk = adm_clk
     ∧ is_Some (list_rate (ops_of adm_clk))
     ∧ ∀ fuel st, list_rates_show fuel (list_rates_open adm_clk) st ≠ Fault).
Proof.
  assert (clock_debug_add adm_clk s_ready = Ret 0 s_adm) as Hrun by by_running.
  destruct (clock_debug_add_files_are_safe adm_clk s_ready s_adm Hrun)
    as [Hmeasure Hlist].
  split.
  - apply (Hmeasure ["clk"; "adm_clk"; "measure"] S_IRUGO adm_clk);
      vm_compute; reflexivity.
  - apply (Hlist ["clk"; "adm_clk"; "list_rates"] S_IRUGO adm_clk);
      vm_compute; reflexivity.
Defined.

Lemma init_then_add_layout_witness :
  let name := lowercase (dbg_name adm_clk) in
  dentry_at s_adm ["clk"] = Some I_dir
  ∧ dentry_at s_adm ["clk"; "debug_suspend"] = Some (I_u32 (Z.lor S_IRUGO S_IWUSR))
  ∧ name ≠ "debug_suspend"
  ∧ dentry_at s_adm ["clk"; name] = Some I_dir
  ∧ dentry_at s_adm ["clk"; name; "rate"]
    = Some (I_file (Z.lor S_IRUGO S_IWUSR) adm_clk clock_rate_fops)
  ∧ dentry_at s_adm ["clk"; name; "enable"]
    = Some (I_file (Z.lor S_IRUGO S_IWUSR) adm_clk clock_enable_fops)
  ∧ dentry_at s_adm ["clk"; name; "is_local"]
    = Some (I_file S_IRUGO adm_clk clock_local_fops)
  ∧ clocks_ptr s_adm = Some clocks.
Proof.
  apply (init_then_add_layout (Some clocks) adm_clk s0 s_ready s_adm).
  - vm_compute. reflexivity.
  - vm_compute. lia.
  - by_running.
  - by_running.
Defined.

End Runs.
